(** * EvalRequest: the report extractor of [evaluation.py]

    A shallow embedding of the two functions of [evaluation.py] that turn a
    report file into data, [extract_metadata] and [load_and_process_data],
    together with the Python string methods they call and the part of
    [pandas.read_csv] they rely on, and of the two functions that list the
    reports, [list_csv_files] and [create_files_dataframe].  The charts and
    the page ([display_analysis] and the script below it) are calls to the
    interface library on floating-point columns and are not embedded.

    Conventions of the embedding.
    - A Python [str] is a [string]; a character is a code point below 256.
    - A file is the text that [open(path, 'r')] presents: every line
      terminator is the single character LF.
    - The file system is a finite map from paths to texts.  Every operation
      takes the file system and returns it, so that "nothing is written" is
      a theorem and not a convention.
    - A raised exception is a value of [exn], named after the Python class. *)

From Stdlib Require Import String Ascii List Bool Arith Lia.
From stdpp Require Import base option list gmap strings.

Local Open Scope string_scope.
Local Open Scope list_scope.

(** ** Exceptions and the two monads *)

Inductive exn : Type :=
  | IndexError          (* a subscript out of range *)
  | StopIteration       (* [next] on an exhausted generator *)
  | FileNotFoundError   (* [open] on a missing path *)
  | EmptyDataError      (* pandas: no columns to parse *)
  | ParserError.        (* pandas: a record with too many fields *)

Inductive result (A : Type) : Type :=
  | Ok (a : A)
  | Raise (e : exn).
Arguments Ok {A} a.
Arguments Raise {A} e.

#[global] Instance result_ret : MRet result := fun A a => Ok a.
#[global] Instance result_bind : MBind result := fun A B f m =>
  match m with
  | Ok a => f a
  | Raise e => Raise e
  end.

(** The file system: path to text. *)
Abbreviation files := (gmap string string).

(** A computation that may read files: it returns a result and the file
    system it leaves behind. *)
Definition IO (A : Type) : Type := files -> result A * files.

#[global] Instance IO_ret : MRet IO := fun A a fs => (Ok a, fs).
#[global] Instance IO_bind : MBind IO := fun A B f m fs =>
  match m fs with
  | (Ok a, fs') => f a fs'
  | (Raise e, fs') => (Raise e, fs')
  end.

Definition lift {A : Type} (r : result A) : IO A := fun fs => (r, fs).

(** ** Python string methods *)

Definition LF : ascii := "010"%char.
Definition newline : string := String LF "".
Definition dquote : string := String "034"%char "".

(** [str.isspace] on one character (code points below 256). *)
Definition isspace (c : ascii) : bool :=
  let n := nat_of_ascii c in
  (((9 <=? n) && (n <=? 13)) || ((28 <=? n) && (n <=? 32))
   || (n =? 133) || (n =? 160))%nat.

(** [s.lstrip()] *)
Fixpoint lstrip (s : string) : string :=
  match s with
  | "" => ""
  | String c s' => if isspace c then lstrip s' else s
  end.

(** [s.rstrip()] *)
Fixpoint rstrip (s : string) : string :=
  match s with
  | "" => ""
  | String c s' =>
      match rstrip s' with
      | "" => if isspace c then "" else String c ""
      | r => String c r
      end
  end.

(** [s.strip()] *)
Definition strip (s : string) : string := rstrip (lstrip s).

(** [s[n:]] *)
Fixpoint skip (n : nat) (s : string) : string :=
  match n, s with
  | 0, _ => s
  | S _, "" => ""
  | S n', String _ s' => skip n' s'
  end.

(** The text before and the text after the leftmost occurrence of [sep] in
    [s]; [None] when [sep] does not occur ([str.partition]). *)
Fixpoint partition (sep s : string) : option (string * string) :=
  if String.prefix sep s then Some ("", skip (String.length sep) s)
  else
    match s with
    | "" => None
    | String c s' =>
        match partition sep s' with
        | Some (a, b) => Some (String c a, b)
        | None => None
        end
    end.

(** [s.split(sep)[0]]: the text before the first [sep], all of [s] when
    there is none. *)
Definition before (sep s : string) : string :=
  match partition sep s with
  | Some (a, _) => a
  | None => s
  end.

(** [sub in s] *)
Definition contains (sub s : string) : bool :=
  match partition sub s with
  | Some _ => true
  | None => false
  end.

(** [s.split(sep)] for a non-empty [sep]: cut at the leftmost occurrence and
    go on in the rest.  Each cut removes at least one character, so
    [length s] rounds are enough. *)
Fixpoint split_fuel (n : nat) (sep s : string) : list string :=
  match n with
  | 0 => [s]
  | S n' =>
      match partition sep s with
      | None => [s]
      | Some (a, b) => a :: split_fuel n' sep b
      end
  end.

Definition split (sep s : string) : list string :=
  split_fuel (String.length s) sep s.

(** [sep.join(l)] *)
Definition join (sep : string) (l : list string) : string :=
  String.concat sep l.

(** [l[i]] for [i >= 0]: out of range raises [IndexError]. *)
Definition item {A : Type} (i : nat) (l : list A) : result A :=
  match l !! i with
  | Some x => Ok x
  | None => Raise IndexError
  end.

(** [file.readlines()]: the lines of a text, each with its terminator. *)
Fixpoint readlines (s : string) : list string :=
  match s with
  | "" => []
  | String c s' =>
      if Ascii.eqb c LF then String c "" :: readlines s'
      else
        match readlines s' with
        | [] => [String c ""]
        | l :: ls => String c l :: ls
        end
  end.

(** [next(i for i, line in enumerate(content) if sub in line)] *)
Fixpoint next_index (sub : string) (content : list string) : result nat :=
  match content with
  | [] => Raise StopIteration
  | line :: rest =>
      if contains sub line then Ok 0
      else i ← next_index sub rest; Ok (S i)
  end.

(** ** Reading files *)

(** [open(file_path, 'r')] followed by reading the whole text. *)
Definition read_text (file_path : string) : IO string := fun fs =>
  match fs !! file_path with
  | Some text => (Ok text, fs)
  | None => (Raise FileNotFoundError, fs)
  end.

(** [with open(file_path, 'r') as file: content = file.readlines()] *)
Definition open_readlines (file_path : string) : IO (list string) :=
  text ← read_text file_path; mret (readlines text).

(** ** [extract_metadata] *)

Record Metadata : Type := {
  instruments : string;
  periode : string;
  model : string;
  region : string;
  type_erreur : string
}.

Definition marker : string := "Error Distribution:".

(** [content[i].split(': ')[1].strip()] *)
Definition header_value (content : list string) (i : nat) : result string :=
  line ← item i content;
  v ← item 1 (split ": " line);
  Ok (strip v).

(** The body of the loop of [extract_metadata] on a line that contains the
    marker: the pair ([error_type], [param]). *)
Definition parse_error_line (line : string) : result (string * string) :=
  piece ← item 1 (split marker line);
  let error_info := strip piece in
  param ←
    (if contains "(" error_info
     then p ← item 1 (split "(" error_info); item 0 (split ")" p)
     else Ok "");
  head ← item 0 (split "(" error_info);
  Ok (strip head, param).

(** [f"{error_type} ({param})"] *)
Definition descriptor (p : string * string) : string :=
  fst p +:+ " (" +:+ snd p +:+ ")".

(** The loop [for line in content: if 'Error Distribution:' in line: ...]
    with its accumulator [error_types]. *)
Fixpoint error_types (content : list string) : result (list string) :=
  match content with
  | [] => Ok []
  | line :: rest =>
      if contains marker line then
        p ← parse_error_line line;
        tl ← error_types rest;
        Ok (descriptor p :: tl)
      else error_types rest
  end.

(** The body of [extract_metadata] once [content] is read. *)
Definition metadata_of (content : list string) : result Metadata :=
  i ← header_value content 1;
  p ← header_value content 2;
  m ← header_value content 3;
  r ← header_value content 4;
  ets ← error_types content;
  Ok {| instruments := i; periode := p; model := m; region := r;
        type_erreur := join ", " ets |}.

Definition extract_metadata (file_path : string) : IO Metadata :=
  content ← open_readlines file_path; lift (metadata_of content).

(** ** [pandas.read_csv(file_path, skiprows=k, nrows=n, engine='python')]

    What the embedding keeps of pandas is the reading of records by the
    python engine with the default dialect (separator [,]), on text that
    holds no quote character (a quoted field may run over several lines,
    which the embedding does not follow; the statements about tables assume
    [quote_free]):
    - a record is a line without its terminator, and its fields are the
      pieces between the commas; an empty line has no field;
    - a record with no field, or with one field of white space, is blank
      and is skipped ([skip_blank_lines=True]);
    - the first [skiprows] lines are dropped; the first record left that is
      not blank is the header, and at most [nrows] records after it are the
      rows;
    - no header at all raises [EmptyDataError]; a row with more fields than
      both the header and the first row raises [ParserError]
      ([on_bad_lines='error']; the surplus fields of the first row are the
      implicit index).

    A [DataFrame] of the embedding is the frame before pandas converts its
    columns: [columns] holds the header as it is read and [rows] holds, for
    each row of the frame and in the same order, the fields read from its
    record, as text.  What pandas does next is not embedded:
    - a column whose fields are all numerals becomes a column of numbers; a
      numeral stands here for the number it is converted to;
    - an empty field and the texts read as missing ([NA], [NaN], [null],
      ...) become the missing value, and a row with fewer fields than the
      header gets the missing value in the columns it lacks;
    - an empty or repeated column name is renamed.
    These steps raise nothing and neither add nor drop a row.  The
    theorems below therefore speak of whether a table is returned and of
    how many rows it has; what a cell holds is stated for decimal numerals
    only.  The python engine also counts a blank line among the last rows
    towards [nrows], which the embedding does not: the theorems about
    tables are about headers and rows that are not blank. *)

Record DataFrame : Type := {
  columns : list string;
  rows : list (list string)
}.

(** A line without its terminator. *)
Definition chomp (line : string) : string := before newline line.

(** The fields of one line, as [csv.reader] yields them. *)
Definition csv_fields (line : string) : list string :=
  match chomp line with
  | "" => []
  | r => split "," r
  end.

(** The test of [_remove_empty_lines]. *)
Definition blank (fields : list string) : bool :=
  match fields with
  | [] => true
  | [f] => String.eqb (strip f) ""
  | _ => false
  end.

Definition parse_csv (text : string) (skiprows nrows : nat)
  : result DataFrame :=
  let records := map csv_fields (drop skiprows (readlines text)) in
  match List.filter (fun r => negb (blank r)) records with
  | [] => Raise EmptyDataError
  | header :: rest =>
      let data := take nrows rest in
      let width := Nat.max (length header) (length (List.hd [] data)) in
      if forallb (fun r => (length r <=? width)%nat) data
      then Ok {| columns := header; rows := data |}
      else Raise ParserError
  end.

Definition read_csv (file_path : string) (skiprows nrows : nat)
  : IO DataFrame :=
  text ← read_text file_path; lift (parse_csv text skiprows nrows).

(** ** [load_and_process_data] *)

Definition dir_marker : string := "Error Distribution: Direction".
Definition neva_marker : string := "Error Distribution: NEVA".

Definition load_and_process_data (file_path : string)
  : IO (DataFrame * DataFrame) :=
  content ← open_readlines file_path;
  dir_start ← lift (next_index dir_marker content);
  neva_start ← lift (next_index neva_marker content);
  dir_data ← read_csv file_path (dir_start + 1) 4;
  neva_data ← read_csv file_path (neva_start + 1) 4;
  mret (dir_data, neva_data).

(** The two calls the page makes for the file it analyses, in one run. *)
Definition extract (file_path : string)
  : IO (Metadata * (DataFrame * DataFrame)) :=
  md ← extract_metadata file_path;
  tables ← load_and_process_data file_path;
  mret (md, tables).

(** ** Vocabulary of the statements *)

(** A computation that leaves the file system as it is and whose result
    depends on the file system through the text at [path] only. *)
Definition reads_only {A : Type} (path : string) (m : IO A) : Prop :=
  forall fs,
    snd (m fs) = fs
    /\ forall fs', fs' !! path = fs !! path -> fst (m fs') = fst (m fs).

(** [sub] occurs in [s]. *)
Definition occurs_in (sub s : string) : Prop :=
  exists a b, s = a +:+ sub +:+ b.

(** A separator no proper suffix of which starts the separator again: its
    occurrences in a text cannot overlap. *)
Definition unbordered (sep : string) : bool :=
  forallb (fun k => negb (String.prefix (skip k sep) sep))
          (seq 1 (String.length sep - 1)).

(** The text after the first [sep] of [line], up to the second [sep] when
    there is one. *)
Definition segment (sep line : string) : option string :=
  match partition sep line with
  | None => None
  | Some (_, b) =>
      match partition sep b with
      | Some (m, _) => Some m
      | None => Some b
      end
  end.


(** Lines 2 to 5 (indices 1 to 4) exist and hold the separator. *)
Definition header_ok (content : list string) : bool :=
  forallb (fun i => match content !! i with
                    | Some line => contains ": " line
                    | None => false
                    end) [1; 2; 3; 4].

(** The value the header line of index [i] gives: the segment after its
    first separator, without the white space around it. *)
Definition header_text (content : list string) (i : nat) : string :=
  match content !! i with
  | Some line =>
      match segment ": " line with
      | Some m => strip m
      | None => ""
      end
  | None => ""
  end.

(** The field of the metadata read from line index [i]. *)
Definition header_field (i : nat) (md : Metadata) : string :=
  match i with
  | 1 => instruments md
  | 2 => periode md
  | 3 => model md
  | _ => region md
  end.

(** The lines that hold the marker, in file order. *)
Definition marker_lines (content : list string) : list string :=
  List.filter (contains marker) content.

(** A text without the quote character. *)
Definition quote_free (text : string) : bool := negb (contains dquote text).

(** A line that is not blank and has [w] fields. *)
Definition plain_record (w : nat) (line : string) : bool :=
  negb (blank (csv_fields line)) && (length (csv_fields line) =? w)%nat.

(** After line [i] come a header line and rows as wide as the header; the
    rows are the next four lines, or all that remain when fewer do. *)
Definition table_at (content : list string) (i : nat) : bool :=
  match drop (S i) content with
  | [] => false
  | h :: rest =>
      plain_record (length (csv_fields h)) h
      && forallb (plain_record (length (csv_fields h))) (take 4 rest)
  end.

(** The column names expected after marker line [i]. *)
Definition columns_after (content : list string) (i : nat) : list string :=
  match content !! S i with
  | Some h => csv_fields h
  | None => []
  end.

(** The rows expected after marker line [i]. *)
Definition rows_after (content : list string) (i : nat)
  : list (list string) :=
  map csv_fields (take 4 (drop (S (S i)) content)).

(** ** Sample reports *)

Definition e_acute : string := String "233"%char "".

(** The end-to-end scenario of the specification. *)
Definition report_scenario : string :=
  "Title
Instruments: HIRESv1,HIRESv3
P" +:+ e_acute +:+ "riode: 2020-2023
Mod" +:+ String "232"%char "" +:+ "le: MED
R" +:+ e_acute +:+ "gion: Global

Error Distribution: Direction (d0)
Bucket,HIRESv1_MED_d0,HIRESv3_MED_d1
0-15,12.3,8.7
15-45,30.1,25.4
45-90,40.0,45.9
90-180,17.6,20.0
Error Distribution: NEVA (d1)
Bucket,HIRESv1_MED_d0,HIRESv3_MED_d1
0-33,10.5,9.5
33-66,20.5,30.5
66-100,50.0,40.0
100+,19.0,20.0
".

(** The scenario with a header value that holds the separator. *)
Definition report_nested_value : string :=
  "Title
Instruments: a: b
Periode: 2020-2023
Modele: MED
Region: Global
Error Distribution: Direction (d0)
Bucket,HIRESv1_MED_d0,HIRESv3_MED_d1
0-15,12.3,8.7
15-45,30.1,25.4
45-90,40.0,45.9
90-180,17.6,20.0
Error Distribution: NEVA (d1)
Bucket,HIRESv1_MED_d0,HIRESv3_MED_d1
0-33,10.5,9.5
33-66,20.5,30.5
66-100,50.0,40.0
100+,19.0,20.0
".

(** A report that ends two rows after the header of its NEVA table. *)
Definition report_short_table : string :=
  "Title
Instruments: HIRESv1,HIRESv3
Periode: 2020-2023
Modele: MED
Region: Global
Error Distribution: Direction (d0)
Bucket,HIRESv1_MED_d0,HIRESv3_MED_d1
0-15,12.3,8.7
15-45,30.1,25.4
45-90,40.0,45.9
90-180,17.6,20.0
Error Distribution: NEVA (d1)
Bucket,HIRESv1_MED_d0,HIRESv3_MED_d1
0-33,10.5,9.5
33-66,20.5,30.5
".

(** A report with a cell that is no number in its Direction table. *)
Definition report_text_cell : string :=
  "Title
Instruments: HIRESv1,HIRESv3
Periode: 2020-2023
Modele: MED
Region: Global
Error Distribution: Direction (d0)
Bucket,HIRESv1_MED_d0,HIRESv3_MED_d1
0-15,12.3,8.7
15-45,abc,25.4
45-90,40.0,45.9
90-180,17.6,20.0
Error Distribution: NEVA (d1)
Bucket,HIRESv1_MED_d0,HIRESv3_MED_d1
0-33,10.5,9.5
33-66,20.5,30.5
66-100,50.0,40.0
100+,19.0,20.0
".

(** A report with a well-formed Direction table and no NEVA marker. *)
Definition report_no_neva : string :=
  "Title
Instruments: HIRESv1,HIRESv3
Periode: 2020-2023
Modele: MED
Region: Global
Error Distribution: Direction (d0)
Bucket,HIRESv1_MED_d0,HIRESv3_MED_d1
0-15,12.3,8.7
15-45,30.1,25.4
45-90,40.0,45.9
90-180,17.6,20.0
".

(** A report of three lines. *)
Definition report_three_lines : string :=
  "Title
Instruments: HIRESv1,HIRESv3
Periode: 2020-2023
".

(** A report whose fourth line has no separator. *)
Definition report_no_separator : string :=
  "Title
Instruments: HIRESv1,HIRESv3
Periode: 2020-2023
Modele MED
Region: Global
Error Distribution: Direction (d0)
".

(** A report with its header and no marker line, and the same report with
    lines that are no table after a marker. *)
Definition report_no_marker : string :=
  "Title
Instruments: HIRESv1,HIRESv3
Periode: 2020-2023
Modele: MED
Region: Global
".

Definition report_broken_table : string :=
  "Title
Instruments: HIRESv1,HIRESv3
Periode: 2020-2023
Modele: MED
Region: Global
Error Distribution: Direction (d0)
this is, not, a, table
".

Definition data_csv : string := "data/report.csv".

Definition one_file (text : string) : files := {[ data_csv := text ]}.

(** ** Listing the reports: [list_csv_files] and [create_files_dataframe] *)

(** [s.endswith(suffix)] *)
Definition endswith (suffix s : string) : bool :=
  String.eqb (skip (String.length s - String.length suffix) s) suffix.

(** [os.path.join(a, b)] of [posixpath]. *)
Definition path_join (a b : string) : string :=
  if String.prefix "/" b then b
  else if String.eqb a "" || endswith "/" a then a +:+ b
  else a +:+ "/" +:+ b.

(** One record of the list [files_data]; the keys of the dictionary are
    ['Fichier'], ['Region'], ['Instruments'], ['Période'], ['Modèles'] and
    ['Types d'erreur']. *)
Record FileRow : Type := {
  Fichier : string;
  Region : string;
  Instruments : string;
  Periode : string;
  Modeles : string;
  Types_d_erreur : string
}.

(** The dictionary appended for [file] with its [metadata]. *)
Definition file_row (file : string) (metadata : Metadata) : FileRow :=
  {| Fichier := file;
     Region := region metadata;
     Instruments := instruments metadata;
     Periode := periode metadata;
     Modeles := model metadata;
     Types_d_erreur := type_erreur metadata |}.

Section Listing.

(** [os.listdir]: the names of the entries of a directory, in the order the
    operating system gives them on this run, or the exception it raises. *)
Variable listdir : string -> result (list string).

(** [[f for f in os.listdir(directory) if f.endswith('.csv')]] *)
Definition list_csv_files (directory : string) : result (list string) :=
  entries ← listdir directory;
  Ok (List.filter (endswith ".csv") entries).

(** The loop of [create_files_dataframe] with its accumulator
    [files_data]. *)
Fixpoint files_data (names : list string) : IO (list FileRow) :=
  match names with
  | [] => mret []
  | file :: rest =>
      metadata ← extract_metadata (path_join "data" file);
      tl ← files_data rest;
      mret (file_row file metadata :: tl)
  end.

(** The records of the frame [pd.DataFrame(files_data)], in order. *)
Definition create_files_dataframe : IO (list FileRow) :=
  names ← lift (list_csv_files "data");
  files_data names.

End Listing.

(** ** Vocabulary of the further statements *)

(** The report [file] of the directory [data] exists and its lines 2 to 5
    hold the separator. *)
Definition listed_ok (fs : files) (file : string) : bool :=
  match fs !! path_join "data" file with
  | Some text => header_ok (readlines text)
  | None => false
  end.

(** A text of white space only. *)
Fixpoint all_space (s : string) : bool :=
  match s with
  | "" => true
  | String c s' => isspace c && all_space s'
  end.

(** A line that is not blank and has at most [w] fields. *)
Definition short_record (w : nat) (line : string) : bool :=
  negb (blank (csv_fields line)) && (length (csv_fields line) <=? w)%nat.

(** After line [i] come a header line and rows no wider than the header;
    the rows are the next four lines, or all that remain when fewer do. *)
Definition window_at (content : list string) (i : nat) : bool :=
  match drop (S i) content with
  | [] => false
  | h :: rest =>
      negb (blank (csv_fields h))
      && forallb (short_record (length (csv_fields h))) (take 4 rest)
  end.

(** Every line after line [i] is blank. *)
Definition blank_after (content : list string) (i : nat) : bool :=
  forallb (fun line => blank (csv_fields line)) (drop (S i) content).

(** ** Further sample reports *)

(** The Direction table has three rows and the NEVA marker follows them. *)
Definition report_three_rows : string :=
  "Title
Instruments: HIRESv1,HIRESv3
Periode: 2020-2023
Modele: MED
Region: Global
Error Distribution: Direction (d0)
Bucket,HIRESv1_MED_d0,HIRESv3_MED_d1
0-15,12.3,8.7
15-45,30.1,25.4
45-90,40.0,45.9
Error Distribution: NEVA (d1)
Bucket,HIRESv1_MED_d0,HIRESv3_MED_d1
0-33,10.5,9.5
33-66,20.5,30.5
66-100,50.0,40.0
100+,19.0,20.0
".

(** The Direction marker is the last line that is not blank. *)
Definition report_marker_last : string :=
  "Title
Instruments: HIRESv1,HIRESv3
Periode: 2020-2023
Modele: MED
Region: Global
Error Distribution: NEVA (d1)
Bucket,HIRESv1_MED_d0,HIRESv3_MED_d1
0-33,10.5,9.5
33-66,20.5,30.5
66-100,50.0,40.0
100+,19.0,20.0
Error Distribution: Direction (d0)

".

(** The tables of [report_nested_value] below six lines that are no
    header. *)
Definition report_no_header : string :=
  "x
x
x
x
x
Error Distribution: Direction (d0)
Bucket,HIRESv1_MED_d0,HIRESv3_MED_d1
0-15,12.3,8.7
15-45,30.1,25.4
45-90,40.0,45.9
90-180,17.6,20.0
Error Distribution: NEVA (d1)
Bucket,HIRESv1_MED_d0,HIRESv3_MED_d1
0-33,10.5,9.5
33-66,20.5,30.5
66-100,50.0,40.0
100+,19.0,20.0
".

(** Line 2 has nothing after its separator. *)
Definition report_empty_value : string :=
  "Title
Instruments: " +:+ newline +:+ "Periode: 2020-2023
Modele: MED
Region: Global
".

(** A directory [data] with two reports and a file that is no report. *)
Definition sample_listdir (directory : string) : result (list string) :=
  if String.eqb directory "data"
  then Ok ["b.csv"; "notes.txt"; "a.csv"]
  else Raise FileNotFoundError.

Definition sample_files : files :=
  {[ "data/a.csv" := report_no_marker;
     "data/b.csv" := report_nested_value;
     "data/notes.txt" := "to do" ]}.

(** The same directory when [a.csv] has three lines. *)
Definition sample_files_broken : files :=
  {[ "data/a.csv" := report_three_lines;
     "data/b.csv" := report_nested_value;
     "data/notes.txt" := "to do" ]}.

(** ** The error type of a marker line, by position *)

(** The text a marker line is parsed from: what stands between the first
    marker of the line and the next one (the end of the line when there is
    none), without the white space around it. *)
Definition error_text (line : string) : string :=
  match segment marker line with
  | Some m => strip m
  | None => ""
  end.

(** The kind: the error text before its first opening parenthesis,
    stripped. *)
Definition kind_of (line : string) : string :=
  strip (before "(" (error_text line)).

(** The parameter: what follows the first opening parenthesis of the error
    text, up to the next parenthesis, opening or closing, or to the end of
    the text; empty when the error text has no opening parenthesis. *)
Definition param_of (line : string) : string :=
  match partition "(" (error_text line) with
  | Some (_, rest) => before ")" (before "(" rest)
  | None => ""
  end.

(** A report whose third marker line holds text after the kind and no
    parenthesis. *)
Definition report_neva_summary : string :=
  "Title
Instruments: HIRESv1,HIRESv3
Periode: 2020-2023
Modele: MED
Region: Global
Error Distribution: Direction (HIRES)
Error Distribution: NEVA
Error Distribution: NEVA summary
".

(** ** Tables as they are written *)

Definition is_digit (c : ascii) : bool :=
  ((48 <=? nat_of_ascii c) && (nat_of_ascii c <=? 57))%nat.

Fixpoint all_digits (s : string) : bool :=
  match s with
  | "" => true
  | String c s' => is_digit c && all_digits s'
  end.

(** One digit or more. *)
Definition digits (s : string) : bool :=
  match s with
  | "" => false
  | _ => all_digits s
  end.

(** Digits, or digits, a point and digits. *)
Definition unsigned_decimal (s : string) : bool :=
  match partition "." s with
  | Some (a, b) => digits a && digits b
  | None => digits s
  end.

(** A decimal numeral such as [12.3], [40] or [-0.5]. *)
Definition is_decimal (s : string) : bool :=
  match s with
  | String c s' =>
      if Ascii.eqb c "-" then unsigned_decimal s' else unsigned_decimal s
  | "" => false
  end.






(** * Properties *)

(** ** Strings *)

Lemma app_cons (c : ascii) (s t : string) :
  String c s +:+ t = String c (s +:+ t).
Proof. reflexivity. Qed.

Lemma app_nil_l (s : string) : "" +:+ s = s.
Proof. reflexivity. Qed.

Lemma app_nil_r (s : string) : s +:+ "" = s.
Proof. induction s as [|c s IH]; [reflexivity|]. rewrite app_cons, IH. reflexivity. Qed.

Lemma app_assoc (s t u : string) : (s +:+ t) +:+ u = s +:+ t +:+ u.
Proof.
  induction s as [|c s IH]; [reflexivity|].
  rewrite !app_cons, IH. reflexivity.
Qed.

Lemma length_app (s t : string) :
  String.length (s +:+ t) = String.length s + String.length t.
Proof.
  induction s as [|c s IH]; [reflexivity|].
  rewrite app_cons. simpl. rewrite IH. reflexivity.
Qed.

Lemma prefix_cons (a b : ascii) (s t : string) :
  String.prefix (String a s) (String b t)
  = if ascii_dec a b then String.prefix s t else false.
Proof. reflexivity. Qed.

Lemma prefix_nil_r (p : string) : String.prefix p "" = true -> p = "".
Proof. destruct p; [reflexivity|discriminate]. Qed.

Lemma prefix_nil_l (s : string) : String.prefix "" s = true.
Proof. destruct s; reflexivity. Qed.

Lemma prefix_app_self (s r : string) : String.prefix s (s +:+ r) = true.
Proof.
  induction s as [|c s IH]; [apply prefix_nil_l|].
  rewrite app_cons, prefix_cons. destruct (ascii_dec c c); [exact IH|congruence].
Qed.

Lemma prefix_split (p s : string) :
  String.prefix p s = true -> s = p +:+ skip (String.length p) s.
Proof.
  revert s. induction p as [|a p IH]; intros s H; [reflexivity|].
  destruct s as [|b s]; [discriminate|].
  rewrite prefix_cons in H. destruct (ascii_dec a b) as [->|]; [|discriminate].
  rewrite app_cons. simpl. f_equal. apply IH, H.
Qed.

Lemma skip_app (s r : string) : skip (String.length s) (s +:+ r) = r.
Proof. induction s as [|c s IH]; [destruct r; reflexivity|exact IH]. Qed.

(** A prefix of [x +:+ y] either is a prefix of [x] or runs over the end of
    [x]. *)
Lemma prefix_app_inv (p x y : string) :
  String.prefix p (x +:+ y) = true ->
  String.prefix p x = true
  \/ (String.length x < String.length p
      /\ String.prefix (skip (String.length x) p) y = true).
Proof.
  revert p. induction x as [|c x IH]; intros p H.
  - destruct p as [|a p]; [left; reflexivity|].
    right. split; [simpl; lia|exact H].
  - destruct p as [|a p]; [left; reflexivity|].
    rewrite app_cons, prefix_cons in H. rewrite prefix_cons.
    destruct (ascii_dec a c); [|discriminate].
    destruct (IH _ H) as [Hp|[Hl Hp]]; [left; exact Hp|].
    right. split; [simpl; lia|exact Hp].
Qed.

(** A prefix of [x +:+ y] no longer than [x] is a prefix of [x]. *)
Lemma prefix_app_short (p x y : string) :
  String.prefix p (x +:+ y) = true ->
  String.length p <= String.length x ->
  String.prefix p x = true.
Proof.
  intros H Hl. destruct (prefix_app_inv _ _ _ H) as [Hp|[Hlt _]]; [exact Hp|lia].
Qed.

Lemma length_skip (k : nat) (s : string) :
  String.length (skip k s) = String.length s - k.
Proof.
  revert s. induction k as [|k IH]; intros s; [simpl; lia|].
  destruct s as [|c s]; [reflexivity|]. simpl. apply IH.
Qed.

(** ** [partition], [contains], [before] *)

Lemma partition_eq (sep s : string) :
  partition sep s =
  if String.prefix sep s then Some ("", skip (String.length sep) s)
  else
    match s with
    | "" => None
    | String c s' =>
        match partition sep s' with
        | Some (a, b) => Some (String c a, b)
        | None => None
        end
    end.
Proof. destruct s; reflexivity. Qed.

(** What [partition] returns rebuilds the text. *)
Lemma partition_Some (sep s a b : string) :
  partition sep s = Some (a, b) -> s = a +:+ sep +:+ b.
Proof.
  revert a b. induction s as [|c s IH]; intros a b H; rewrite partition_eq in H.
  - destruct (String.prefix sep "") eqn:Hp; [|discriminate].
    injection H as <- <-. rewrite app_nil_l. apply prefix_split, Hp.
  - destruct (String.prefix sep (String c s)) eqn:Hp.
    + injection H as <- <-. rewrite app_nil_l. apply prefix_split, Hp.
    + destruct (partition sep s) as [[a' b']|] eqn:Hr; [|discriminate].
      injection H as <- <-. rewrite app_cons. f_equal. apply IH. reflexivity.
Qed.

Lemma partition_None_prefix (sep s : string) :
  partition sep s = None -> String.prefix sep s = false.
Proof.
  intros H. rewrite partition_eq in H.
  destruct (String.prefix sep s); [discriminate|reflexivity].
Qed.

Lemma partition_None_cons (sep : string) (c : ascii) (s : string) :
  partition sep (String c s) = None -> partition sep s = None.
Proof.
  intros H. rewrite partition_eq in H.
  destruct (String.prefix sep (String c s)); [discriminate|].
  destruct (partition sep s) as [[a b]|]; [discriminate|reflexivity].
Qed.

Lemma contains_false (sub s : string) :
  contains sub s = false <-> partition sub s = None.
Proof.
  unfold contains. destruct (partition sub s) as [[a b]|]; split; congruence.
Qed.

Lemma contains_true (sub s : string) :
  contains sub s = true <-> exists a b, partition sub s = Some (a, b).
Proof.
  unfold contains. destruct (partition sub s) as [[a b]|]; split.
  - eauto.
  - reflexivity.
  - discriminate.
  - intros (a & b & H). discriminate.
Qed.

Lemma partition_occurs (sep a b : string) :
  exists a' b', partition sep (a +:+ sep +:+ b) = Some (a', b').
Proof.
  induction a as [|c a IH].
  - rewrite app_nil_l, partition_eq, prefix_app_self. eauto.
  - rewrite app_cons, partition_eq.
    destruct (String.prefix sep _); [eauto|].
    destruct IH as (a' & b' & ->). eauto.
Qed.

(** [sub in s] holds exactly when [sub] occurs in [s]. *)
Lemma contains_occurs (sub s : string) :
  contains sub s = true <-> occurs_in sub s.
Proof.
  rewrite contains_true. split.
  - intros (a & b & H). exists a, b. apply partition_Some, H.
  - intros (a & b & ->). apply partition_occurs.
Qed.

Lemma contains_app_mono (sub u m v : string) :
  contains sub m = true -> contains sub (u +:+ m +:+ v) = true.
Proof.
  rewrite !contains_occurs. intros (a & b & ->).
  exists (u +:+ a), (b +:+ v). rewrite !app_assoc. reflexivity.
Qed.

(** In front of an unbordered separator, a text that does not hold the
    separator leaves it as the leftmost occurrence. *)
Lemma unbordered_no_overlap (sep x y : string) :
  unbordered sep = true ->
  x <> "" ->
  String.prefix sep x = false ->
  String.prefix sep (x +:+ sep +:+ y) = false.
Proof.
  intros Hu Hx Hp.
  destruct (String.prefix sep (x +:+ sep +:+ y)) eqn:H; [|reflexivity].
  destruct (prefix_app_inv _ _ _ H) as [Hp'|[Hl Hs]]; [congruence|].
  exfalso.
  assert (Hk : In (String.length x) (seq 1 (String.length sep - 1))).
  { apply in_seq. destruct x; [congruence|]. simpl in *. lia. }
  unfold unbordered in Hu. rewrite forallb_forall in Hu.
  specialize (Hu _ Hk). apply negb_true_iff in Hu.
  rewrite (prefix_app_short _ sep y) in Hu; [discriminate|exact Hs|].
  rewrite length_skip. lia.
Qed.

Lemma partition_app (sep a b : string) :
  unbordered sep = true ->
  contains sep a = false ->
  partition sep (a +:+ sep +:+ b) = Some (a, b).
Proof.
  intros Hu. induction a as [|c a IH]; intros Ha.
  - rewrite app_nil_l, partition_eq, prefix_app_self, skip_app. reflexivity.
  - apply contains_false in Ha.
    rewrite partition_eq, unbordered_no_overlap;
      [|exact Hu|discriminate|apply partition_None_prefix, Ha].
    rewrite app_cons, IH; [reflexivity|].
    apply contains_false. eapply partition_None_cons, Ha.
Qed.

(** A one-character separator that is absent from [x] is looked for in what
    follows [x]. *)
Lemma partition_char_app (c : ascii) (x y : string) :
  contains (String c "") x = false ->
  partition (String c "") (x +:+ y)
  = match partition (String c "") y with
    | Some (a, b) => Some (x +:+ a, b)
    | None => None
    end.
Proof.
  induction x as [|d x IH]; intros Hx.
  - rewrite app_nil_l. destruct (partition _ y) as [[a b]|]; reflexivity.
  - apply contains_false in Hx.
    pose proof (partition_None_prefix _ _ Hx) as Hp.
    rewrite prefix_cons in Hp.
    rewrite app_cons, partition_eq, prefix_cons.
    destruct (ascii_dec c d).
    + rewrite prefix_nil_l in Hp. discriminate.
    + rewrite IH by (apply contains_false; eapply partition_None_cons, Hx).
      destruct (partition _ y) as [[a b]|]; reflexivity.
Qed.

Lemma before_char_app (c : ascii) (x y : string) :
  contains (String c "") x = false ->
  before (String c "") (x +:+ y) = x +:+ before (String c "") y.
Proof.
  intros Hx. unfold before. rewrite partition_char_app by exact Hx.
  destruct (partition _ y) as [[a b]|]; reflexivity.
Qed.

Lemma before_app (sep a b : string) :
  unbordered sep = true ->
  contains sep a = false ->
  before sep (a +:+ sep +:+ b) = a.
Proof. intros Hu Ha. unfold before. rewrite partition_app; auto. Qed.

Lemma before_absent (sep s : string) :
  contains sep s = false -> before sep s = s.
Proof. intros H. apply contains_false in H. unfold before. rewrite H. reflexivity. Qed.

(** ** [split] *)

Lemma partition_shorter (sep s a b : string) :
  sep <> "" ->
  partition sep s = Some (a, b) ->
  String.length b < String.length s.
Proof.
  intros Hs H. apply partition_Some in H. subst s.
  rewrite !length_app. destruct sep; [congruence|]. simpl. lia.
Qed.

Lemma partition_nil (sep : string) : sep <> "" -> partition sep "" = None.
Proof. intros H. destruct sep; [congruence|reflexivity]. Qed.

Lemma split_fuel_enough (sep : string) (n m : nat) (s : string) :
  sep <> "" ->
  String.length s <= n ->
  String.length s <= m ->
  split_fuel n sep s = split_fuel m sep s.
Proof.
  intros Hs. revert m s. induction n as [|n IH]; intros m s Hn Hm.
  - destruct s; [|simpl in Hn; lia].
    destruct m; cbn [split_fuel]; [reflexivity|].
    rewrite partition_nil by exact Hs. reflexivity.
  - destruct m as [|m].
    + destruct s; [|simpl in Hm; lia].
      cbn [split_fuel]. rewrite partition_nil by exact Hs. reflexivity.
    + cbn [split_fuel]. destruct (partition sep s) as [[a b]|] eqn:Hp; [|reflexivity].
      pose proof (partition_shorter _ _ _ _ Hs Hp).
      f_equal. apply IH; lia.
Qed.

(** The defining equation of [split]: the fuel never runs out. *)
Lemma split_eq (sep s : string) :
  sep <> "" ->
  split sep s =
  match partition sep s with
  | None => [s]
  | Some (a, b) => a :: split sep b
  end.
Proof.
  intros Hs. unfold split.
  destruct (partition sep s) as [[a b]|] eqn:Hp.
  - pose proof (partition_shorter _ _ _ _ Hs Hp).
    destruct (String.length s) eqn:Hl; [lia|].
    cbn [split_fuel]. rewrite Hp. f_equal. apply split_fuel_enough; [exact Hs|lia|lia].
  - destruct (String.length s); cbn [split_fuel]; rewrite ?Hp; reflexivity.
Qed.

Lemma item0_split (sep s : string) :
  sep <> "" -> item 0 (split sep s) = Ok (before sep s).
Proof.
  intros Hs. rewrite split_eq by exact Hs. unfold before.
  destruct (partition sep s) as [[a b]|]; reflexivity.
Qed.

(** [s.split(sep)[1]] is the segment after the first separator, and raises
    [IndexError] exactly when [s] holds no separator. *)
Lemma item1_split (sep s : string) :
  sep <> "" ->
  item 1 (split sep s) =
  match segment sep s with
  | Some m => Ok m
  | None => Raise IndexError
  end.
Proof.
  intros Hs. rewrite split_eq by exact Hs. unfold segment.
  destruct (partition sep s) as [[a b]|]; [|reflexivity].
  rewrite split_eq by exact Hs.
  destruct (partition sep b) as [[m c]|]; reflexivity.
Qed.

Lemma segment_before (sep s a b : string) :
  partition sep s = Some (a, b) -> segment sep s = Some (before sep b).
Proof.
  intros H. unfold segment, before. rewrite H.
  destruct (partition sep b) as [[m c]|]; reflexivity.
Qed.

Lemma segment_is_Some (sep s : string) :
  contains sep s = true -> exists m, segment sep s = Some m.
Proof.
  intros H. apply contains_true in H as (a & b & H).
  erewrite segment_before by exact H. eauto.
Qed.

Lemma segment_None (sep s : string) :
  contains sep s = false -> segment sep s = None.
Proof. intros H. apply contains_false in H. unfold segment. rewrite H. reflexivity. Qed.

(** ** [strip] *)

Lemma rstrip_cons_nonspace (c : ascii) (s : string) :
  isspace c = false -> rstrip (String c s) = String c (rstrip s).
Proof. intros H. cbn [rstrip]. rewrite H. destruct (rstrip s); reflexivity. Qed.

Lemma rstrip_cons_nonempty (c : ascii) (s : string) :
  rstrip s <> "" -> rstrip (String c s) = String c (rstrip s).
Proof. intros H. cbn [rstrip]. destruct (rstrip s); [congruence|reflexivity]. Qed.

Lemma lstrip_app_nonspace (k : string) (c : ascii) (r : string) :
  isspace c = false ->
  lstrip (k +:+ String c r) = lstrip k +:+ String c r.
Proof.
  intros Hc. induction k as [|d k IH].
  - rewrite app_nil_l. cbn [lstrip]. rewrite Hc. reflexivity.
  - rewrite app_cons. cbn [lstrip]. destruct (isspace d); [exact IH|reflexivity].
Qed.

Lemma rstrip_app_nonspace (a : string) (c : ascii) (r : string) :
  isspace c = false ->
  rstrip (a +:+ String c r) = a +:+ String c (rstrip r).
Proof.
  intros Hc. induction a as [|d a IH].
  - rewrite !app_nil_l. apply rstrip_cons_nonspace, Hc.
  - rewrite !app_cons, rstrip_cons_nonempty; rewrite IH.
    + reflexivity.
    + destruct a; discriminate.
Qed.

Lemma lstrip_head (k : string) :
  lstrip k = "" \/ exists d r, lstrip k = String d r /\ isspace d = false.
Proof.
  induction k as [|c k IH]; [left; reflexivity|].
  cbn [lstrip]. destruct (isspace c) eqn:Hc; [exact IH|].
  right. eauto.
Qed.

Lemma lstrip_idem (k : string) : lstrip (lstrip k) = lstrip k.
Proof.
  destruct (lstrip_head k) as [->|(d & r & -> & Hd)]; [reflexivity|].
  cbn [lstrip]. rewrite Hd. reflexivity.
Qed.

Lemma rstrip_idem (s : string) : rstrip (rstrip s) = rstrip s.
Proof.
  induction s as [|c s IH]; [reflexivity|].
  cbn [rstrip]. destruct (rstrip s) as [|d r] eqn:Hr.
  - destruct (isspace c) eqn:Hc; [reflexivity|].
    cbn [rstrip]. rewrite Hc. reflexivity.
  - rewrite rstrip_cons_nonempty; rewrite IH; [reflexivity|discriminate].
Qed.

Lemma lstrip_rstrip_lstrip (k : string) :
  lstrip (rstrip (lstrip k)) = rstrip (lstrip k).
Proof.
  destruct (lstrip_head k) as [->|(d & r & -> & Hd)]; [reflexivity|].
  rewrite rstrip_cons_nonspace by exact Hd. cbn [lstrip]. rewrite Hd. reflexivity.
Qed.

Lemma strip_idem (k : string) : strip (strip k) = strip k.
Proof. unfold strip. rewrite lstrip_rstrip_lstrip. apply rstrip_idem. Qed.

Lemma strip_lstrip (k : string) : strip (lstrip k) = strip k.
Proof. unfold strip. rewrite lstrip_idem. reflexivity. Qed.

Lemma lstrip_suffix (k : string) : exists u, k = u +:+ lstrip k.
Proof.
  induction k as [|c k [u IH]]; [exists ""; reflexivity|].
  cbn [lstrip]. destruct (isspace c).
  - exists (String c u). rewrite app_cons. f_equal. exact IH.
  - exists "". reflexivity.
Qed.

Lemma rstrip_prefix (k : string) : exists v, k = rstrip k +:+ v.
Proof.
  induction k as [|c k [v IH]]; [exists ""; reflexivity|].
  cbn [rstrip]. destruct (rstrip k) as [|d r] eqn:Hr.
  - destruct (isspace c).
    + exists (String c k). reflexivity.
    + exists k. reflexivity.
  - exists v. rewrite app_cons. f_equal. exact IH.
Qed.

(** [strip] returns a part of its argument. *)
Lemma strip_part (k : string) : exists u v, k = u +:+ strip k +:+ v.
Proof.
  destruct (lstrip_suffix k) as [u Hu].
  destruct (rstrip_prefix (lstrip k)) as [v Hv].
  exists u, v. unfold strip. rewrite <- Hv. exact Hu.
Qed.

Lemma contains_strip (sub k : string) :
  contains sub k = false -> contains sub (strip k) = false.
Proof.
  intros H. destruct (contains sub (strip k)) eqn:Hc; [|reflexivity].
  destruct (strip_part k) as (u & v & Hk).
  rewrite Hk, contains_app_mono in H; [discriminate|exact Hc].
Qed.

Lemma contains_lstrip (sub k : string) :
  contains sub k = false -> contains sub (lstrip k) = false.
Proof.
  intros H. destruct (contains sub (lstrip k)) eqn:Hc; [|reflexivity].
  destruct (lstrip_suffix k) as (u & Hk).
  rewrite Hk, <- (app_nil_r (lstrip k)), contains_app_mono in H;
    [discriminate|exact Hc].
Qed.

(** ** Locating a marker *)

Lemma next_index_Ok (sub : string) (content : list string) (i : nat) :
  next_index sub content = Ok i <->
  (exists line, content !! i = Some line /\ contains sub line = true)
  /\ (forall j line, j < i -> content !! j = Some line ->
        contains sub line = false).
Proof.
  revert i. induction content as [|l rest IH]; intros i; cbn [next_index].
  - split; [discriminate|]. intros [(line & H & _) _]. destruct i; discriminate.
  - destruct (contains sub l) eqn:Hl.
    + split.
      * intros [= <-]. split; [exists l; auto|]. intros j line Hj. lia.
      * intros [_ Hall]. destruct i as [|i]; [reflexivity|].
        specialize (Hall 0 l ltac:(lia) eq_refl). congruence.
    + assert (Hstep : forall i', next_index sub rest = Ok i' <->
                (exists line, (l :: rest) !! S i' = Some line
                              /\ contains sub line = true)
                /\ (forall j line, j < S i' -> (l :: rest) !! j = Some line ->
                      contains sub line = false)).
      { intros i'. rewrite IH. split; intros [Hex Hall]; (split; [exact Hex|]).
        - intros [|j] line Hj Hlk; [injection Hlk as <-; exact Hl|].
          apply (Hall j); [lia|exact Hlk].
        - intros j line Hj Hlk. apply (Hall (S j)); [lia|exact Hlk]. }
      destruct i as [|i].
      * split.
        -- destruct (next_index sub rest); discriminate.
        -- intros [(line & [= <-] & Hc) _]. congruence.
      * rewrite <- Hstep. destruct (next_index sub rest); cbn; split; congruence.
Qed.

Lemma next_index_Raise (sub : string) (content : list string) (e : exn) :
  next_index sub content = Raise e <->
  e = StopIteration /\ Forall (fun line => contains sub line = false) content.
Proof.
  induction content as [|l rest IH]; cbn [next_index].
  - split; [intros [= <-]; auto|]. intros [-> _]. reflexivity.
  - destruct (contains sub l) eqn:Hl.
    + split; [discriminate|]. intros [_ H]. inversion H; congruence.
    + assert (Hstep : next_index sub rest = Raise e <->
                e = StopIteration
                /\ Forall (fun line => contains sub line = false) (l :: rest)).
      { rewrite IH. split; intros [-> H]; (split; [reflexivity|]).
        - constructor; assumption.
        - inversion H; assumption. }
      rewrite <- Hstep. destruct (next_index sub rest); cbn; split; congruence.
Qed.

(** ** Running the two functions on a file system *)

Lemma extract_metadata_run (file_path text : string) (fs : files) :
  fs !! file_path = Some text ->
  extract_metadata file_path fs = (metadata_of (readlines text), fs).
Proof.
  intros H. unfold extract_metadata, open_readlines, read_text, lift.
  cbv [mbind IO_bind mret IO_ret]. rewrite H. reflexivity.
Qed.

Lemma extract_metadata_missing (file_path : string) (fs : files) :
  fs !! file_path = None ->
  extract_metadata file_path fs = (Raise FileNotFoundError, fs).
Proof.
  intros H. unfold extract_metadata, open_readlines, read_text, lift.
  cbv [mbind IO_bind mret IO_ret]. rewrite H. reflexivity.
Qed.

Lemma load_and_process_data_run (file_path text : string) (fs : files) :
  fs !! file_path = Some text ->
  load_and_process_data file_path fs =
  (dir_start ← next_index dir_marker (readlines text);
   neva_start ← next_index neva_marker (readlines text);
   dir_data ← parse_csv text (dir_start + 1) 4;
   neva_data ← parse_csv text (neva_start + 1) 4;
   Ok (dir_data, neva_data), fs).
Proof.
  intros H.
  unfold load_and_process_data, read_csv, open_readlines, read_text, lift.
  cbv [mbind IO_bind result_bind mret IO_ret]. rewrite H.
  destruct (next_index dir_marker (readlines text)) as [d|e]; [|reflexivity].
  destruct (next_index neva_marker (readlines text)) as [n|e]; [|reflexivity].
  rewrite H.
  destruct (parse_csv text (d + 1) 4) as [a|e]; [|reflexivity].
  rewrite H.
  destruct (parse_csv text (n + 1) 4) as [b|e]; reflexivity.
Qed.

Lemma load_and_process_data_missing (file_path : string) (fs : files) :
  fs !! file_path = None ->
  load_and_process_data file_path fs = (Raise FileNotFoundError, fs).
Proof.
  intros H.
  unfold load_and_process_data, read_csv, open_readlines, read_text, lift.
  cbv [mbind IO_bind mret IO_ret]. rewrite H. reflexivity.
Qed.

(** ** The header lines *)

Lemma sep_nonempty : ": " <> "".
Proof. discriminate. Qed.

Lemma header_value_line (content : list string) (i : nat) (line : string) :
  content !! i = Some line ->
  header_value content i =
  match segment ": " line with
  | Some m => Ok (strip m)
  | None => Raise IndexError
  end.
Proof.
  intros H. unfold header_value, item. rewrite H. cbn.
  fold (item 1 (split ": " line)). rewrite item1_split by exact sep_nonempty.
  destruct (segment ": " line); reflexivity.
Qed.

Lemma header_value_out_of_range (content : list string) (i : nat) :
  content !! i = None -> header_value content i = Raise IndexError.
Proof. intros H. unfold header_value, item. rewrite H. reflexivity. Qed.

(** Reading a header line raises nothing but [IndexError]. *)
Lemma header_value_exn (content : list string) (i : nat) (e : exn) :
  header_value content i = Raise e -> e = IndexError.
Proof.
  destruct (content !! i) as [line|] eqn:H.
  - rewrite (header_value_line _ _ _ H). destruct (segment ": " line); congruence.
  - rewrite (header_value_out_of_range _ _ H). congruence.
Qed.

Lemma header_value_no_sep (content : list string) (i : nat) (line : string) :
  content !! i = Some line ->
  contains ": " line = false ->
  header_value content i = Raise IndexError.
Proof.
  intros H Hc. rewrite (header_value_line _ _ _ H), segment_None; auto.
Qed.

Lemma header_ok_lines (content : list string) :
  header_ok content = true ->
  forall i, 1 <= i <= 4 ->
  exists line, content !! i = Some line /\ contains ": " line = true.
Proof.
  unfold header_ok. rewrite forallb_forall. intros H i Hi.
  assert (Hin : In i [1; 2; 3; 4]) by (simpl; lia).
  specialize (H _ Hin). destruct (content !! i) as [line|]; [eauto|discriminate].
Qed.

Lemma header_value_ok (content : list string) (i : nat) :
  header_ok content = true ->
  1 <= i <= 4 ->
  header_value content i = Ok (header_text content i).
Proof.
  intros H Hi. destruct (header_ok_lines _ H i Hi) as (line & Hl & Hc).
  unfold header_text. rewrite (header_value_line _ _ _ Hl), Hl.
  destruct (segment_is_Some _ _ Hc) as [m ->]. reflexivity.
Qed.

(** ** The error-type lines *)

Lemma marker_nonempty : marker <> "".
Proof. discriminate. Qed.

Lemma lparen_nonempty : "(" <> "".
Proof. discriminate. Qed.

Lemma rparen_nonempty : ")" <> "".
Proof. discriminate. Qed.

(** On a line that holds the marker no subscript of the loop body is out of
    range. *)
Lemma parse_error_line_total (line : string) :
  contains marker line = true -> exists p, parse_error_line line = Ok p.
Proof.
  intros H. unfold parse_error_line.
  rewrite item1_split by exact marker_nonempty.
  destruct (segment_is_Some _ _ H) as [piece ->]. cbn.
  rewrite item0_split by exact lparen_nonempty.
  destruct (contains "(" (strip piece)) eqn:Hc.
  - rewrite item1_split by exact lparen_nonempty.
    destruct (segment_is_Some _ _ Hc) as [p ->]. cbn.
    rewrite item0_split by exact rparen_nonempty. cbn. eauto.
  - cbn. eauto.
Qed.

(** The loop looks at the marker lines only. *)
Lemma error_types_marker_lines (content : list string) :
  error_types content = error_types (marker_lines content).
Proof.
  induction content as [|l rest IH]; [reflexivity|].
  unfold marker_lines in *. cbn [error_types List.filter].
  destruct (contains marker l) eqn:Hl.
  - cbn [error_types]. rewrite Hl, IH. reflexivity.
  - exact IH.
Qed.

(** The loop always ends normally, with one descriptor per marker line, in
    file order. *)
Lemma error_types_total (content : list string) :
  exists pairs,
    Forall2 (fun line p => parse_error_line line = Ok p)
            (marker_lines content) pairs
    /\ error_types content = Ok (map descriptor pairs).
Proof.
  induction content as [|l rest (pairs & HF & IH)].
  - exists []. split; [constructor|reflexivity].
  - unfold marker_lines in *. cbn [error_types List.filter].
    destruct (contains marker l) eqn:Hl.
    + destruct (parse_error_line_total _ Hl) as [p Hp].
      exists (p :: pairs). split; [constructor; assumption|].
      rewrite Hp, IH. reflexivity.
    + exists pairs. split; assumption.
Qed.

Lemma error_types_no_marker (content : list string) :
  Forall (fun line => contains marker line = false) content ->
  error_types content = Ok [].
Proof.
  induction 1 as [|l rest Hl _ IH]; [reflexivity|].
  cbn [error_types]. rewrite Hl. exact IH.
Qed.

(** The metadata of a file whose header lines are well formed. *)
Lemma metadata_of_ok (content : list string) :
  header_ok content = true ->
  exists pairs,
    Forall2 (fun line p => parse_error_line line = Ok p)
            (marker_lines content) pairs
    /\ metadata_of content =
       Ok {| instruments := header_text content 1;
             periode := header_text content 2;
             model := header_text content 3;
             region := header_text content 4;
             type_erreur := join ", " (map descriptor pairs) |}.
Proof.
  intros H. destruct (error_types_total content) as (pairs & HF & He).
  exists pairs. split; [exact HF|].
  unfold metadata_of.
  rewrite !(header_value_ok _ _ H) by lia. cbn. rewrite He. reflexivity.
Qed.

(** Whatever goes wrong in [metadata_of] is an [IndexError] of a header
    line. *)
Lemma metadata_of_exn (content : list string) (e : exn) :
  metadata_of content = Raise e -> e = IndexError.
Proof.
  unfold metadata_of. intros H.
  destruct (header_value content 1) as [v1|e1] eqn:H1;
    [|cbn in H; injection H as <-; eapply header_value_exn, H1].
  destruct (header_value content 2) as [v2|e2] eqn:H2;
    [|cbn in H; injection H as <-; eapply header_value_exn, H2].
  destruct (header_value content 3) as [v3|e3] eqn:H3;
    [|cbn in H; injection H as <-; eapply header_value_exn, H3].
  destruct (header_value content 4) as [v4|e4] eqn:H4;
    [|cbn in H; injection H as <-; eapply header_value_exn, H4].
  destruct (error_types_total content) as (pairs & _ & He).
  cbn in H. rewrite He in H. discriminate.
Qed.

Lemma metadata_of_header_fails (content : list string) (i : nat) :
  1 <= i <= 4 ->
  header_value content i = Raise IndexError ->
  metadata_of content = Raise IndexError.
Proof.
  intros Hi Hf.
  destruct (metadata_of content) as [md|e] eqn:Hm;
    [|f_equal; eapply metadata_of_exn, Hm].
  exfalso. unfold metadata_of in Hm.
  destruct (header_value content 1) as [v1|e1] eqn:H1; [|discriminate].
  destruct (header_value content 2) as [v2|e2] eqn:H2; [|discriminate].
  destruct (header_value content 3) as [v3|e3] eqn:H3; [|discriminate].
  destruct (header_value content 4) as [v4|e4] eqn:H4; [|discriminate].
  assert (i = 1 \/ i = 2 \/ i = 3 \/ i = 4) as [ -> | [ -> | [ -> | -> ] ] ] by lia;
    congruence.
Qed.

(** ** The tables *)

Lemma take_filter {A : Type} (p : A -> bool) (n : nat) (l : list A) :
  forallb p (take n l) = true -> take n (List.filter p l) = take n l.
Proof.
  revert l. induction n as [|n IH]; intros l H; [reflexivity|].
  destruct l as [|x l]; [reflexivity|].
  cbn in H. apply andb_true_iff in H as [Hx H].
  cbn. rewrite Hx. cbn. f_equal. apply IH, H.
Qed.

Lemma drop_cons_inv {A : Type} (l : list A) (i : nat) (h : A) (rest : list A) :
  drop i l = h :: rest -> l !! i = Some h /\ drop (S i) l = rest.
Proof.
  intros H. split.
  - rewrite <- (Nat.add_0_r i), <- lookup_drop, H. reflexivity.
  - rewrite <- Nat.add_1_r, <- drop_drop, H. reflexivity.
Qed.

Lemma plain_record_fields (w : nat) (line : string) :
  plain_record w line = true ->
  blank (csv_fields line) = false /\ length (csv_fields line) = w.
Proof.
  unfold plain_record. intros H.
  apply andb_true_iff in H as [Hb Hw].
  apply negb_true_iff in Hb. apply Nat.eqb_eq in Hw. split; assumption.
Qed.

(** What [read_csv] parses below a marker line that is followed by a header
    line and rows of the header's width. *)
Lemma parse_csv_table_at (text : string) (i : nat) :
  table_at (readlines text) i = true ->
  parse_csv text (i + 1) 4 =
  Ok {| columns := columns_after (readlines text) i;
        rows := rows_after (readlines text) i |}.
Proof.
  unfold table_at, parse_csv, columns_after, rows_after.
  rewrite Nat.add_1_r.
  destruct (drop (S i) (readlines text)) as [|h rest] eqn:Hd; [discriminate|].
  destruct (drop_cons_inv _ _ _ _ Hd) as [-> ->].
  intros H. apply andb_true_iff in H as [Hh Hrows].
  apply plain_record_fields in Hh as [Hb _].
  cbn [map List.filter]. rewrite Hb. cbn [negb].
  rewrite take_filter.
  2:{ rewrite firstn_map, forallb_forall.
      intros r Hr. apply in_map_iff in Hr as (line & <- & Hin).
      rewrite forallb_forall in Hrows.
      destruct (plain_record_fields _ _ (Hrows _ Hin)) as [-> _]. reflexivity. }
  rewrite firstn_map.
  replace (forallb _ _) with true; [reflexivity|].
  symmetry. apply forallb_forall. intros r Hr.
  apply in_map_iff in Hr as (line & <- & Hin).
  rewrite forallb_forall in Hrows.
  destruct (plain_record_fields _ _ (Hrows _ Hin)) as [_ ->].
  apply Nat.leb_le. lia.
Qed.

Lemma length_rows_after (content : list string) (i : nat) :
  length (rows_after content i) = Nat.min 4 (length content - (i + 2)).
Proof.
  unfold rows_after. rewrite length_map, length_take, length_drop.
  replace (i + 2) with (S (S i)) by lia. reflexivity.
Qed.

(** [load_and_process_data] on a quote-free file whose two marker lines are
    each followed by a header line and rows of the header's width. *)
Lemma load_and_process_data_tables
    (file_path text : string) (fs : files) (d n : nat) :
  fs !! file_path = Some text ->
  quote_free text = true ->
  next_index dir_marker (readlines text) = Ok d ->
  next_index neva_marker (readlines text) = Ok n ->
  table_at (readlines text) d = true ->
  table_at (readlines text) n = true ->
  load_and_process_data file_path fs =
  (Ok ({| columns := columns_after (readlines text) d;
          rows := rows_after (readlines text) d |},
       {| columns := columns_after (readlines text) n;
          rows := rows_after (readlines text) n |}), fs).
Proof.
  intros Hf _ Hd Hn Htd Htn.
  rewrite (load_and_process_data_run _ _ _ Hf), Hd, Hn. cbn.
  rewrite (parse_csv_table_at _ _ Htd). cbn.
  rewrite (parse_csv_table_at _ _ Htn). reflexivity.
Qed.

(** A character that is not in [s] starts no suffix of [s]. *)
Lemma notin_skip (c : ascii) (s : string) :
  contains (String c "") s = false ->
  forall n r, skip n s <> String c r.
Proof.
  induction s as [|d s IH]; intros H n r.
  - destruct n; discriminate.
  - apply contains_false in H.
    pose proof (partition_None_prefix _ _ H) as Hp. rewrite prefix_cons in Hp.
    destruct n as [|n]; cbn [skip].
    + intros [= -> ->]. destruct (ascii_dec c c); [|congruence].
      rewrite prefix_nil_l in Hp. discriminate.
    + apply IH, contains_false. eapply partition_None_cons, H.
Qed.

Lemma prefix_head (p : string) (c : ascii) (y : string) :
  p <> "" -> String.prefix p (String c y) = true -> exists r, p = String c r.
Proof.
  intros Hp H. destruct p as [|a p]; [congruence|].
  rewrite prefix_cons in H. destruct (ascii_dec a c) as [->|]; [eauto|discriminate].
Qed.

(** Behind a text that does not hold the separator, a character that is not
    in the separator keeps every occurrence to its right. *)
Lemma partition_app_char (sep x : string) (c : ascii) (y : string) :
  contains (String c "") sep = false ->
  contains sep x = false ->
  partition sep (x +:+ String c y)
  = match partition sep y with
    | Some (a, b) => Some (x +:+ String c a, b)
    | None => None
    end.
Proof.
  intros Hc. 
  assert (Hno : forall x', contains sep x' = false ->
            String.prefix sep (x' +:+ String c y) = false).
  { intros x' Hx'. destruct (String.prefix sep (x' +:+ String c y)) eqn:E; [|reflexivity].
    exfalso. apply contains_false in Hx'.
    destruct (prefix_app_inv _ _ _ E) as [Hp|[Hl Hp]].
    - rewrite (partition_None_prefix _ _ Hx') in Hp. discriminate.
    - apply prefix_head in Hp as [r Hr].
      + exact (notin_skip _ _ Hc _ _ Hr).
      + intros E0. apply (f_equal String.length) in E0.
        rewrite length_skip in E0. simpl in E0. lia. }
  induction x as [|d x IH]; intros Hx.
  - pose proof (Hno "" Hx) as H0. rewrite app_nil_l in H0.
    rewrite app_nil_l, partition_eq, H0.
    destruct (partition sep y) as [[a b]|]; reflexivity.
  - rewrite partition_eq, Hno by exact Hx. rewrite app_cons.
    rewrite IH.
    + destruct (partition sep y) as [[a b]|]; reflexivity.
    + apply contains_false. apply contains_false in Hx.
      eapply partition_None_cons, Hx.
Qed.

Lemma before_app_char (sep x : string) (c : ascii) (y : string) :
  contains (String c "") sep = false ->
  contains sep x = false ->
  before sep (x +:+ String c y) = x +:+ String c (before sep y).
Proof.
  intros Hc Hx. unfold before. rewrite partition_app_char by assumption.
  destruct (partition sep y) as [[a b]|]; reflexivity.
Qed.

(** A line-by-line test, for lists that are given. *)
Lemma Forall_absent (sub : string) (content : list string) :
  forallb (fun line => negb (contains sub line)) content = true ->
  Forall (fun line => contains sub line = false) content.
Proof.
  rewrite forallb_forall, Forall_forall. intros H line Hin.
  apply negb_true_iff, H, list_elem_of_In, Hin.
Qed.

(** * The claims *)

(** C7.  For every list of lines and every substring, [next_index] returns
    the index of the first line in which the substring occurs; when the
    substring occurs in no line it raises [StopIteration] (the code's
    marker-not-found error) and yields no index; it raises nothing else. *)
Theorem C7_marker_location (sub : string) (content : list string) :
  (forall i,
     next_index sub content = Ok i <->
     (exists line, content !! i = Some line /\ occurs_in sub line)
     /\ (forall j line, j < i -> content !! j = Some line ->
           ~ occurs_in sub line))
  /\ (next_index sub content = Raise StopIteration <->
      forall line, In line content -> ~ occurs_in sub line)
  /\ (forall e, next_index sub content = Raise e -> e = StopIteration).
Proof.
  split; [|split].
  - intros i. rewrite next_index_Ok. split; intros [(line & Hl & Hc) Hall].
    + split; [exists line; split; [exact Hl|apply contains_occurs, Hc]|].
      intros j l Hj Hjl Ho. apply contains_occurs in Ho.
      rewrite (Hall j l Hj Hjl) in Ho. discriminate.
    + split; [exists line; split; [exact Hl|apply contains_occurs, Hc]|].
      intros j l Hj Hjl. destruct (contains sub l) eqn:Hc'; [|reflexivity].
      exfalso. apply (Hall j l Hj Hjl), contains_occurs, Hc'.
  - rewrite next_index_Raise, Forall_forall. split.
    + intros [_ H] line Hin Ho. apply contains_occurs in Ho.
      rewrite (H line) in Ho; [discriminate|]. apply list_elem_of_In, Hin.
    + intros H. split; [reflexivity|]. intros line Hin.
      destruct (contains sub line) eqn:Hc; [|reflexivity].
      exfalso. apply (H line); [apply list_elem_of_In, Hin|apply contains_occurs, Hc].
  - intros e He. apply next_index_Raise in He as [-> _]. reflexivity.
Qed.

(** C5.  For every file with fewer than five lines, and for every file in
    which one of the lines 2 to 5 does not hold the separator,
    [extract_metadata] raises [IndexError] (the code's malformed-header
    error) and leaves the files as they are. *)
Theorem C5_malformed_header (file_path text : string) (fs : files) :
  fs !! file_path = Some text ->
  (length (readlines text) < 5
   \/ exists i line, 1 <= i <= 4 /\ readlines text !! i = Some line
                     /\ contains ": " line = false) ->
  extract_metadata file_path fs = (Raise IndexError, fs).
Proof.
  intros Hf H. rewrite (extract_metadata_run _ _ _ Hf). f_equal.
  destruct H as [Hlen|(i & line & Hi & Hl & Hc)].
  - apply (metadata_of_header_fails _ 4); [lia|].
    apply header_value_out_of_range, lookup_ge_None. lia.
  - apply (metadata_of_header_fails _ i Hi).
    apply (header_value_no_sep _ _ _ Hl Hc).
Qed.

(** C4.  For every file none of whose lines holds the NEVA marker,
    [load_and_process_data] raises [StopIteration] (the code's
    marker-not-found error): it returns no table at all, whatever the file
    holds for the Direction marker, and leaves the files as they are. *)
Theorem C4_missing_neva_marker (file_path text : string) (fs : files) :
  fs !! file_path = Some text ->
  Forall (fun line => contains neva_marker line = false) (readlines text) ->
  load_and_process_data file_path fs = (Raise StopIteration, fs).
Proof.
  intros Hf Hn. rewrite (load_and_process_data_run _ _ _ Hf). f_equal.
  assert (Hr : next_index neva_marker (readlines text) = Raise StopIteration)
    by (apply next_index_Raise; auto).
  destruct (next_index dir_marker (readlines text)) as [d|e] eqn:Hd; cbn.
  - rewrite Hr. reflexivity.
  - apply next_index_Raise in Hd as [-> _]. reflexivity.
Qed.

Lemma C5_malformed_header_witness :
  extract_metadata data_csv (one_file report_three_lines)
  = (Raise IndexError, one_file report_three_lines)
  /\ extract_metadata data_csv (one_file report_no_separator)
     = (Raise IndexError, one_file report_no_separator).
Proof.
  split.
  - apply (C5_malformed_header data_csv report_three_lines);
      [reflexivity|left; vm_compute; lia].
  - apply (C5_malformed_header data_csv report_no_separator);
      [reflexivity|right].
    exists 3, (String.concat "" ["Modele MED"; newline]).
    split; [lia|split; reflexivity].
Defined.

Lemma C4_missing_neva_marker_witness :
  next_index dir_marker (readlines report_no_neva) = Ok 5
  /\ table_at (readlines report_no_neva) 5 = true
  /\ load_and_process_data data_csv (one_file report_no_neva)
     = (Raise StopIteration, one_file report_no_neva).
Proof.
  split; [reflexivity|split; [reflexivity|]].
  apply (C4_missing_neva_marker data_csv report_no_neva); [reflexivity|].
  apply Forall_absent. vm_compute. reflexivity.
Defined.

(** C9.  For every file whose lines 2 to 5 are well formed,
    [extract_metadata] returns a record, whatever else the file holds: with
    no marker line at all the field [type_erreur] is the empty string, and
    the record is the same for any two files that agree on lines 2 to 5 and
    on their marker lines, so that no table row is ever read. *)
Theorem C9_metadata_without_tables (file_path text : string) (fs : files) :
  fs !! file_path = Some text ->
  header_ok (readlines text) = true ->
  (exists md,
     extract_metadata file_path fs = (Ok md, fs)
     /\ (Forall (fun line => contains marker line = false) (readlines text) ->
         type_erreur md = ""))
  /\ (forall file_path' text' fs',
        fs' !! file_path' = Some text' ->
        (forall i, 1 <= i <= 4 -> readlines text' !! i = readlines text !! i) ->
        marker_lines (readlines text') = marker_lines (readlines text) ->
        fst (extract_metadata file_path' fs')
        = fst (extract_metadata file_path fs)).
Proof.
  intros Hf Hok. split.
  - destruct (metadata_of_ok _ Hok) as (pairs & HF & Hm).
    eexists. rewrite (extract_metadata_run _ _ _ Hf), Hm.
    split; [reflexivity|]. intros Hno. cbn.
    pose proof (error_types_no_marker _ Hno) as He.
    destruct (error_types_total (readlines text)) as (pairs' & HF' & He').
    assert (Hnil : marker_lines (readlines text) = []).
    { unfold marker_lines. clear -Hno. induction Hno as [|l rest Hl _ IH];
        [reflexivity|]. cbn. rewrite Hl. exact IH. }
    rewrite Hnil in HF. inversion HF. reflexivity.
  - intros file_path' text' fs' Hf' Hlines Hmarkers.
    rewrite (extract_metadata_run _ _ _ Hf), (extract_metadata_run _ _ _ Hf').
    cbn [fst]. unfold metadata_of, header_value, item.
    rewrite !Hlines by lia.
    rewrite (error_types_marker_lines (readlines text')), Hmarkers,
      <- error_types_marker_lines.
    reflexivity.
Qed.

Lemma C9_metadata_without_tables_witness :
  (exists md,
     extract_metadata data_csv (one_file report_no_marker)
     = (Ok md, one_file report_no_marker)
     /\ type_erreur md = "")
  /\ fst (extract_metadata data_csv (one_file report_broken_table))
     = Ok {| instruments := "HIRESv1,HIRESv3"; periode := "2020-2023";
             model := "MED"; region := "Global";
             type_erreur := "Direction (d0)" |}.
Proof.
  split.
  - destruct (C9_metadata_without_tables data_csv report_no_marker
                (one_file report_no_marker)) as [(md & Hmd & Hempty) _];
      [reflexivity|reflexivity|].
    exists md. split; [exact Hmd|].
    apply Hempty, Forall_absent. vm_compute. reflexivity.
  - vm_compute. reflexivity.
Defined.

(** C10.  For every header line (lines 2 to 5) whose value holds the
    separator again, [label: v: rest], [extract_metadata] keeps the segment
    [v] between the first and the second separator, stripped, and drops the
    rest of the value. *)
Theorem C10_value_cut_at_second_separator
    (file_path text : string) (fs : files) (i : nat)
    (label v rest : string) :
  fs !! file_path = Some text ->
  header_ok (readlines text) = true ->
  1 <= i <= 4 ->
  readlines text !! i = Some (label +:+ ": " +:+ v +:+ ": " +:+ rest) ->
  contains ": " label = false ->
  contains ": " v = false ->
  exists md,
    extract_metadata file_path fs = (Ok md, fs)
    /\ header_field i md = strip v.
Proof.
  intros Hf Hok Hi Hline Hlabel Hv.
  destruct (metadata_of_ok _ Hok) as (pairs & _ & Hm).
  eexists. rewrite (extract_metadata_run _ _ _ Hf), Hm.
  split; [reflexivity|].
  assert (Ht : header_text (readlines text) i = strip v).
  { unfold header_text, segment. rewrite Hline.
    rewrite partition_app by (reflexivity || exact Hlabel).
    rewrite partition_app by (reflexivity || exact Hv). reflexivity. }
  rewrite <- Ht.
  assert (i = 1 \/ i = 2 \/ i = 3 \/ i = 4) as [ -> | [ -> | [ -> | -> ] ] ]
    by lia; reflexivity.
Qed.

Lemma C10_value_cut_at_second_separator_witness :
  exists md,
    extract_metadata data_csv (one_file report_nested_value)
    = (Ok md, one_file report_nested_value)
    /\ instruments md = "a".
Proof.
  apply (C10_value_cut_at_second_separator data_csv report_nested_value
           (one_file report_nested_value) 1 "Instruments" "a"
           (String.concat "" ["b"; newline]));
    solve [reflexivity | lia].
Defined.

(** ** Determinism *)

Lemma reads_only_lift {A : Type} (p : string) (r : result A) :
  reads_only p (lift r).
Proof. intros fs. split; [reflexivity|]. intros fs' _. reflexivity. Qed.

Lemma reads_only_ret {A : Type} (p : string) (a : A) :
  reads_only p (mret a).
Proof. intros fs. split; [reflexivity|]. intros fs' _. reflexivity. Qed.

Lemma reads_only_read_text (p : string) : reads_only p (read_text p).
Proof.
  intros fs. unfold read_text. split.
  - destruct (fs !! p); reflexivity.
  - intros fs' ->. destruct (fs !! p); reflexivity.
Qed.

(** Sequencing keeps the property: this is where the file system is
    threaded from one call to the next. *)
Lemma reads_only_bind {A B : Type} (p : string) (m : IO A) (k : A -> IO B) :
  reads_only p m ->
  (forall a, reads_only p (k a)) ->
  reads_only p (m ≫= k).
Proof.
  intros Hm Hk fs. cbv [mbind IO_bind].
  destruct (Hm fs) as [Hs Hr]. split.
  - destruct (m fs) as [[a|e] fs1] eqn:E; cbn in Hs; subst fs1.
    + apply (Hk a fs).
    + reflexivity.
  - intros fs' Hp. specialize (Hr fs' Hp).
    destruct (Hm fs') as [Hs' _].
    destruct (m fs) as [[a|e] fs1]; destruct (m fs') as [[a'|e'] fs1'];
      cbn in *; subst; try discriminate.
    + injection Hr as ->. apply (Hk a fs), Hp.
    + injection Hr as ->. reflexivity.
Qed.

Lemma reads_only_extract_metadata (p : string) :
  reads_only p (extract_metadata p).
Proof.
  unfold extract_metadata, open_readlines.
  repeat (apply reads_only_bind; [|intros ?]);
    auto using reads_only_read_text, reads_only_ret, reads_only_lift.
Qed.

Lemma reads_only_load_and_process_data (p : string) :
  reads_only p (load_and_process_data p).
Proof.
  unfold load_and_process_data, read_csv, open_readlines.
  repeat (apply reads_only_bind; [|intros ?]);
    auto using reads_only_read_text, reads_only_ret, reads_only_lift.
Qed.

Lemma reads_only_extract (p : string) : reads_only p (extract p).
Proof.
  unfold extract.
  apply reads_only_bind; [apply reads_only_extract_metadata|intros md].
  apply reads_only_bind; [apply reads_only_load_and_process_data|intros t].
  apply reads_only_ret.
Qed.

(** C8.  Extraction is a function of the contents of the file alone: each
    of [extract_metadata], [load_and_process_data] and their sequence
    [extract] leaves the file system as it found it, gives the same result
    on any file system that holds the same text at the path, and so gives
    the same result when it is run a second time. *)
Theorem C8_extraction_deterministic (file_path : string) (fs fs' : files) :
  fs' !! file_path = fs !! file_path ->
  (snd (extract_metadata file_path fs) = fs
   /\ fst (extract_metadata file_path fs') = fst (extract_metadata file_path fs)
   /\ fst (extract_metadata file_path (snd (extract_metadata file_path fs)))
      = fst (extract_metadata file_path fs))
  /\ (snd (load_and_process_data file_path fs) = fs
      /\ fst (load_and_process_data file_path fs')
         = fst (load_and_process_data file_path fs)
      /\ fst (load_and_process_data file_path
                (snd (load_and_process_data file_path fs)))
         = fst (load_and_process_data file_path fs))
  /\ (snd (extract file_path fs) = fs
      /\ fst (extract file_path fs') = fst (extract file_path fs)
      /\ fst (extract file_path (snd (extract file_path fs)))
         = fst (extract file_path fs)).
Proof.
  intros Hp.
  destruct (reads_only_extract_metadata file_path fs) as [Hm1 Hm2].
  destruct (reads_only_load_and_process_data file_path fs) as [Hl1 Hl2].
  destruct (reads_only_extract file_path fs) as [He1 He2].
  repeat split; try assumption; auto.
  - rewrite Hm1. reflexivity.
  - rewrite Hl1. reflexivity.
  - rewrite He1. reflexivity.
Qed.

Lemma C8_extraction_deterministic_witness :
  fst (extract data_csv (snd (extract data_csv (one_file report_scenario))))
  = fst (extract data_csv (one_file report_scenario))
  /\ snd (extract data_csv (one_file report_scenario))
     = one_file report_scenario.
Proof.
  destruct (C8_extraction_deterministic data_csv (one_file report_scenario)
              (one_file report_scenario) eq_refl) as (_ & _ & Hs & _ & Hr).
  split; [exact Hr|exact Hs].
Defined.

(** The loop body on a line where [k (p) suf] follows the first marker. *)
Lemma parse_error_line_parenthesised (pre k p suf : string) :
  contains marker pre = false ->
  contains marker k = false ->
  contains "(" k = false ->
  contains marker p = false ->
  contains "(" p = false ->
  contains ")" p = false ->
  parse_error_line (pre +:+ marker +:+ k +:+ "(" +:+ p +:+ ")" +:+ suf)
  = Ok (strip k, p).
Proof.
  intros Hpre Hk Hkp Hp Hpl Hpr.
  unfold parse_error_line.
  rewrite item1_split by exact marker_nonempty.
  erewrite (segment_before marker _ pre)
    by (apply partition_app; [reflexivity|exact Hpre]).
  change ("(" +:+ p +:+ ")" +:+ suf) with (String "(" (p +:+ String ")" suf)).
  rewrite before_app_char by (reflexivity || exact Hk).
  rewrite before_app_char by (reflexivity || exact Hp).
  cbn [mbind result_bind].
  set (S := before marker suf).
  assert (Hinfo : strip (k +:+ String "(" (p +:+ String ")" S))
                  = lstrip k +:+ String "(" (p +:+ String ")" (rstrip S))).
  { unfold strip. rewrite lstrip_app_nonspace by reflexivity.
    change (lstrip k +:+ String "(" (p +:+ String ")" S))
      with (lstrip k +:+ "(" +:+ p +:+ String ")" S).
    rewrite <- !app_assoc. rewrite rstrip_app_nonspace by reflexivity.
    rewrite !app_assoc. reflexivity. }
  rewrite Hinfo. clear Hinfo.
  assert (Hpart :
    partition "(" (lstrip k +:+ String "(" (p +:+ String ")" (rstrip S)))
    = Some (lstrip k, p +:+ String ")" (rstrip S))).
  { apply (partition_app "(" (lstrip k)); [reflexivity|].
    apply contains_lstrip, Hkp. }
  assert (Hc :
    contains "(" (lstrip k +:+ String "(" (p +:+ String ")" (rstrip S)))
    = true).
  { apply contains_true. eauto. }
  assert (Hb :
    before "(" (lstrip k +:+ String "(" (p +:+ String ")" (rstrip S)))
    = lstrip k).
  { unfold before. rewrite Hpart. reflexivity. }
  rewrite Hc, item1_split, item0_split by discriminate.
  rewrite (segment_before _ _ _ _ Hpart), Hb.
  cbn [mbind result_bind].
  rewrite item0_split by discriminate.
  assert (Hparam :
    before ")" (before "(" (p +:+ String ")" (rstrip S))) = p).
  { change (String ")" (rstrip S)) with (")" +:+ rstrip S).
    rewrite (before_char_app "(" p) by exact Hpl.
    rewrite (before_char_app "(" ")") by reflexivity.
    apply before_app; [reflexivity|exact Hpr]. }
  rewrite Hparam. cbn. rewrite strip_lstrip. reflexivity.
Qed.

(** The loop body on a line where a text without parenthesis follows the
    first marker. *)
Lemma parse_error_line_bare (pre k : string) :
  contains marker pre = false ->
  contains marker k = false ->
  contains "(" k = false ->
  parse_error_line (pre +:+ marker +:+ k) = Ok (strip k, "").
Proof.
  intros Hpre Hk Hkp.
  unfold parse_error_line.
  rewrite item1_split by exact marker_nonempty.
  rewrite (segment_before marker _ pre k)
    by (apply partition_app; [reflexivity|exact Hpre]).
  rewrite before_absent by exact Hk. cbn [mbind result_bind].
  rewrite (contains_strip _ _ Hkp).
  rewrite item0_split by exact lparen_nonempty.
  rewrite before_absent by (apply contains_strip, Hkp).
  cbn. rewrite strip_idem. reflexivity.
Qed.

(** The subscripts of the loop body, read as positions in the line. *)
Lemma parse_error_line_by_position (line : string) :
  contains marker line = true ->
  parse_error_line line = Ok (kind_of line, param_of line).
Proof.
  intros H. unfold parse_error_line, kind_of, param_of, error_text.
  rewrite item1_split by exact marker_nonempty.
  destruct (segment_is_Some _ _ H) as [piece ->]. cbn [mbind result_bind].
  rewrite item0_split by exact lparen_nonempty.
  unfold contains at 1.
  destruct (partition "(" (strip piece)) as [[a b]|] eqn:Hp.
  - rewrite item1_split by exact lparen_nonempty.
    rewrite (segment_before _ _ _ _ Hp). cbn [mbind result_bind].
    rewrite item0_split by exact rparen_nonempty. reflexivity.
  - reflexivity.
Qed.

Lemma error_types_by_position (content : list string) :
  error_types content
  = Ok (map (fun line => descriptor (kind_of line, param_of line))
            (marker_lines content)).
Proof.
  induction content as [|l rest IH]; [reflexivity|].
  unfold marker_lines in *. cbn [error_types List.filter].
  destruct (contains marker l) eqn:Hl; [|exact IH].
  rewrite (parse_error_line_by_position _ Hl), IH. reflexivity.
Qed.

Lemma contains_marker_app (pre rest : string) :
  contains marker (pre +:+ marker +:+ rest) = true.
Proof. apply contains_occurs. exists pre, rest. reflexivity. Qed.

(** C6 (amended).  In a report whose lines 2 to 5 hold the separator,
    [extract_metadata] parses every line that contains the marker, in file
    order, and [type_erreur] joins the descriptors [kind (parameter)] of
    these lines.  The pair of a line is read from the text between its
    first marker and the next one, or the end of the line, stripped: the
    kind is what precedes the first opening parenthesis of that text,
    stripped, and the parameter is what follows it up to the next
    parenthesis or the end, empty when there is no opening parenthesis.
    So when [k (p) suf] follows the first marker of a line the pair is
    ([k] stripped, [p]), and when a text [k] without parenthesis follows it
    the pair is ([k] stripped, empty): whatever stands between the marker
    and the parenthesis, or the end of the line, is the kind. *)
Theorem C6_error_types_by_position
    (file_path text : string) (fs : files) :
  fs !! file_path = Some text ->
  header_ok (readlines text) = true ->
  exists md,
    extract_metadata file_path fs = (Ok md, fs)
    /\ error_types (readlines text)
       = Ok (map (fun line => kind_of line +:+ " (" +:+ param_of line +:+ ")")
                 (marker_lines (readlines text)))
    /\ type_erreur md
       = join ", "
           (map (fun line => kind_of line +:+ " (" +:+ param_of line +:+ ")")
                (marker_lines (readlines text)))
    /\ (forall line, In line (marker_lines (readlines text)) ->
          parse_error_line line = Ok (kind_of line, param_of line))
    /\ (forall pre k p suf,
          In (pre +:+ marker +:+ k +:+ "(" +:+ p +:+ ")" +:+ suf)
             (readlines text) ->
          contains marker pre = false ->
          contains marker k = false ->
          contains "(" k = false ->
          contains marker p = false ->
          contains "(" p = false ->
          contains ")" p = false ->
          In (pre +:+ marker +:+ k +:+ "(" +:+ p +:+ ")" +:+ suf)
             (marker_lines (readlines text))
          /\ kind_of (pre +:+ marker +:+ k +:+ "(" +:+ p +:+ ")" +:+ suf)
             = strip k
          /\ param_of (pre +:+ marker +:+ k +:+ "(" +:+ p +:+ ")" +:+ suf)
             = p)
    /\ (forall pre k,
          In (pre +:+ marker +:+ k) (readlines text) ->
          contains marker pre = false ->
          contains marker k = false ->
          contains "(" k = false ->
          In (pre +:+ marker +:+ k) (marker_lines (readlines text))
          /\ kind_of (pre +:+ marker +:+ k) = strip k
          /\ param_of (pre +:+ marker +:+ k) = "").
Proof.
  intros Hf Hok.
  pose proof (error_types_by_position (readlines text)) as He.
  eexists. rewrite (extract_metadata_run _ _ _ Hf). unfold metadata_of.
  rewrite !(header_value_ok _ _ Hok) by lia. cbn [mbind result_bind].
  rewrite He. cbn [mbind result_bind].
  split; [reflexivity|]. split; [reflexivity|]. cbn [type_erreur].
  split; [reflexivity|].
  split.
  { intros line Hin. apply parse_error_line_by_position.
    unfold marker_lines in Hin. apply filter_In in Hin. tauto. }
  split.
  - intros pre k p suf Hin Hpre Hk Hkp Hp Hpl Hpr.
    pose proof (contains_marker_app pre (k +:+ "(" +:+ p +:+ ")" +:+ suf))
      as Hc.
    split; [unfold marker_lines; apply filter_In; auto|].
    pose proof (parse_error_line_by_position _ Hc) as H1.
    rewrite (parse_error_line_parenthesised pre k p suf) in H1 by assumption.
    injection H1 as <- <-. auto.
  - intros pre k Hin Hpre Hk Hkp.
    pose proof (contains_marker_app pre k) as Hc.
    split; [unfold marker_lines; apply filter_In; auto|].
    pose proof (parse_error_line_by_position _ Hc) as H1.
    rewrite (parse_error_line_bare pre k) in H1 by assumption.
    injection H1 as <- <-. auto.
Qed.

Lemma C6_error_types_by_position_witness :
  exists md,
    extract_metadata data_csv (one_file report_neva_summary)
    = (Ok md, one_file report_neva_summary)
    /\ type_erreur md = "Direction (HIRES), NEVA (), NEVA summary ()"
    /\ kind_of "Error Distribution: Direction (HIRES)
" = "Direction"
    /\ param_of "Error Distribution: Direction (HIRES)
" = "HIRES"
    /\ kind_of "Error Distribution: NEVA
" = "NEVA"
    /\ param_of "Error Distribution: NEVA
" = "".
Proof.
  destruct (C6_error_types_by_position data_csv report_neva_summary
              (one_file report_neva_summary) eq_refl eq_refl)
    as (md & Hrun & _ & Ht & _ & Hp & Hb).
  exists md. split; [exact Hrun|].
  split; [rewrite Ht; vm_compute; reflexivity|].
  destruct (Hp "" " Direction " "HIRES" newline) as (_ & Hk1 & Hp1);
    try reflexivity; [vm_compute; tauto|].
  destruct (Hb "" (String.concat "" [" NEVA"; newline])) as (_ & Hk2 & Hp2);
    try reflexivity; [vm_compute; tauto|].
  repeat split; assumption.
Defined.

(** C6, as stated, fails: the line [Error Distribution: NEVA summary]
    contains [Error Distribution: NEVA] and no parenthesis, and its kind is
    [NEVA summary], not [NEVA]; the line
    [Error Distribution: (old) Error Distribution: Direction (HIRES)]
    contains [Error Distribution: Direction (HIRES)], and its pair is
    (empty, [old]). *)
Lemma C6_counterexample :
  readlines report_neva_summary !! 7 = Some "Error Distribution: NEVA summary
"
  /\ contains "Error Distribution: NEVA" "Error Distribution: NEVA summary
" = true
  /\ contains "(" "Error Distribution: NEVA summary
" = false
  /\ contains ")" "Error Distribution: NEVA summary
" = false
  /\ parse_error_line "Error Distribution: NEVA summary
" = Ok ("NEVA summary", "")
  /\ (exists md,
        fst (extract_metadata data_csv (one_file report_neva_summary)) = Ok md
        /\ type_erreur md = "Direction (HIRES), NEVA (), NEVA summary ()")
  /\ contains "Error Distribution: Direction (HIRES)"
       "Error Distribution: (old) Error Distribution: Direction (HIRES)
" = true
  /\ parse_error_line
       "Error Distribution: (old) Error Distribution: Direction (HIRES)
" = Ok ("", "old").
Proof.
  repeat (split; [vm_compute; reflexivity|]).
  split; [eexists; split; vm_compute; reflexivity|].
  split; vm_compute; reflexivity.
Qed.

(** ** The two tables *)


(** *** Rows as they are written *)


Lemma contains_char_nil (c : ascii) : contains (String c "") "" = false.
Proof. reflexivity. Qed.



















(** C2 (amended).  For every quote-free report that holds both marker
    lines, the first of each followed by a header line that is not blank
    and by rows (the next four lines, or all that remain when fewer do)
    that are not blank and have as many fields as the header, and in which
    fewer than four rows remain below one of the two headers,
    [load_and_process_data] raises nothing: it returns both tables, each
    with as many rows as remain below its header, at most four, so that
    one of them has fewer than four rows. *)
Theorem C2_short_table_returned
    (file_path text : string) (fs : files) (d n : nat) :
  fs !! file_path = Some text ->
  quote_free text = true ->
  next_index dir_marker (readlines text) = Ok d ->
  next_index neva_marker (readlines text) = Ok n ->
  table_at (readlines text) d = true ->
  table_at (readlines text) n = true ->
  (length (readlines text) < d + 6 \/ length (readlines text) < n + 6) ->
  exists dir_data neva_data,
    load_and_process_data file_path fs = (Ok (dir_data, neva_data), fs)
    /\ length (rows dir_data) = Nat.min 4 (length (readlines text) - (d + 2))
    /\ length (rows neva_data) = Nat.min 4 (length (readlines text) - (n + 2))
    /\ (length (rows dir_data) < 4 \/ length (rows neva_data) < 4).
Proof.
  intros Hf Hq Hd Hn Htd Htn Hshort.
  eexists _, _.
  rewrite (load_and_process_data_tables _ _ _ _ _ Hf Hq Hd Hn Htd Htn).
  split; [reflexivity|]. cbn [rows]. rewrite !length_rows_after.
  repeat split; try reflexivity. lia.
Qed.

Lemma C2_short_table_returned_witness :
  exists dir_data neva_data,
    load_and_process_data data_csv (one_file report_short_table)
    = (Ok (dir_data, neva_data), one_file report_short_table)
    /\ length (rows dir_data) = 4
    /\ length (rows neva_data) = 2.
Proof.
  destruct (C2_short_table_returned data_csv report_short_table
              (one_file report_short_table) 5 11)
    as (dir_data & neva_data & Hload & Hld & Hln & _);
    try reflexivity; try (right; vm_compute; lia).
  exists dir_data, neva_data.
  split; [exact Hload|]. split; [rewrite Hld|rewrite Hln]; reflexivity.
Defined.

(** C2, as stated, fails: the report ends two rows below the header of its
    NEVA table, and [load_and_process_data] returns a NEVA table of two
    rows. *)
Lemma C2_counterexample :
  quote_free report_short_table = true
  /\ next_index neva_marker (readlines report_short_table) = Ok 11
  /\ length (readlines report_short_table) = 15
  /\ exists dir_data neva_data,
       fst (load_and_process_data data_csv (one_file report_short_table))
       = Ok (dir_data, neva_data)
       /\ length (rows neva_data) = 2.
Proof.
  repeat (split; [vm_compute; reflexivity|]).
  eexists _, _. split; [vm_compute; reflexivity|reflexivity].
Qed.

(** C3 (amended).  For every quote-free report that holds both marker
    lines, the first of each followed by a header line that is not blank
    and by rows (the next four lines, or all that remain when fewer do)
    that are not blank and have as many fields as the header, and in which
    one of the rows below a header holds a cell that is not a decimal
    numeral, [load_and_process_data] raises nothing: it returns both
    tables, each with as many rows as remain below its header, at most
    four, and the row that holds the cell is one of them.  No cell is
    checked. *)
Theorem C3_non_numeric_cell_accepted
    (file_path text : string) (fs : files) (d n i j c : nat)
    (line cell : string) :
  fs !! file_path = Some text ->
  quote_free text = true ->
  next_index dir_marker (readlines text) = Ok d ->
  next_index neva_marker (readlines text) = Ok n ->
  table_at (readlines text) d = true ->
  table_at (readlines text) n = true ->
  i = d \/ i = n ->
  i + 2 <= j < i + 6 ->
  readlines text !! j = Some line ->
  csv_fields line !! c = Some cell ->
  is_decimal cell = false ->
  exists dir_data neva_data,
    load_and_process_data file_path fs = (Ok (dir_data, neva_data), fs)
    /\ length (rows dir_data) = Nat.min 4 (length (readlines text) - (d + 2))
    /\ length (rows neva_data) = Nat.min 4 (length (readlines text) - (n + 2))
    /\ (i = d -> j - (d + 2) < length (rows dir_data))
    /\ (i = n -> j - (n + 2) < length (rows neva_data)).
Proof.
  intros Hf Hq Hd Hn Htd Htn Hi Hj Hline _ _.
  apply lookup_lt_Some in Hline.
  eexists _, _.
  rewrite (load_and_process_data_tables _ _ _ _ _ Hf Hq Hd Hn Htd Htn).
  split; [reflexivity|]. cbn [rows]. rewrite !length_rows_after.
  repeat split; try reflexivity; intros ->; lia.
Qed.

Lemma C3_non_numeric_cell_accepted_witness :
  exists dir_data neva_data,
    load_and_process_data data_csv (one_file report_text_cell)
    = (Ok (dir_data, neva_data), one_file report_text_cell)
    /\ length (rows dir_data) = 4
    /\ length (rows neva_data) = 4.
Proof.
  destruct (C3_non_numeric_cell_accepted data_csv report_text_cell
              (one_file report_text_cell) 5 11 5 8 1
              (String.concat "" ["15-45,abc,25.4"; newline]) "abc")
    as (dir_data & neva_data & Hload & Hld & Hln & _);
    try reflexivity; [left; reflexivity|lia|].
  exists dir_data, neva_data.
  split; [exact Hload|]. split; [rewrite Hld|rewrite Hln]; reflexivity.
Defined.

(** C3, as stated, fails: the second row of the Direction table holds the
    cell [abc], and [load_and_process_data] returns the table with that
    cell. *)
Lemma C3_counterexample :
  quote_free report_text_cell = true
  /\ next_index dir_marker (readlines report_text_cell) = Ok 5
  /\ csv_fields <$> (readlines report_text_cell !! 8)
     = Some ["15-45"; "abc"; "25.4"]
  /\ exists dir_data neva_data,
       fst (load_and_process_data data_csv (one_file report_text_cell))
       = Ok (dir_data, neva_data)
       /\ rows dir_data !! 1 = Some ["15-45"; "abc"; "25.4"].
Proof.
  repeat (split; [vm_compute; reflexivity|]).
  eexists _, _. split; [vm_compute; reflexivity|reflexivity].
Qed.

(** * Further properties *)

(** ** The string methods *)

Lemma prefix_app_mono (p x y : string) :
  String.prefix p x = true -> String.prefix p (x +:+ y) = true.
Proof.
  revert x. induction p as [|a p IH]; intros x H; [apply prefix_nil_l|].
  destruct x as [|b x]; [discriminate|].
  rewrite app_cons, prefix_cons in *. destruct (ascii_dec a b); [auto|discriminate].
Qed.

(** The text in front of the leftmost separator holds no separator. *)
Lemma partition_free (sep s a b : string) :
  sep <> "" ->
  partition sep s = Some (a, b) ->
  contains sep a = false.
Proof.
  intros Hs. revert a b. induction s as [|c s IH]; intros a b H;
    rewrite partition_eq in H.
  - destruct (String.prefix sep "") eqn:Hp; [|discriminate].
    apply prefix_nil_r in Hp. congruence.
  - destruct (String.prefix sep (String c s)) eqn:Hp.
    + injection H as <- <-. apply contains_false, partition_nil, Hs.
    + destruct (partition sep s) as [[a' b']|] eqn:Hr; [|discriminate].
      injection H as <- <-. apply contains_false.
      rewrite partition_eq.
      destruct (String.prefix sep (String c a')) eqn:Hp'.
      * pose proof (partition_Some _ _ _ _ Hr) as ->.
        rewrite <- app_cons, (prefix_app_mono _ _ _ Hp') in Hp. discriminate.
      * specialize (IH _ _ eq_refl). apply contains_false in IH.
        rewrite IH. reflexivity.
Qed.

Lemma split_nonnil (sep s : string) : sep <> "" -> split sep s <> [].
Proof.
  intros Hs. rewrite split_eq by exact Hs.
  destruct (partition sep s) as [[a b]|]; discriminate.
Qed.

Lemma concat_cons (sep x : string) (l : list string) :
  l <> [] -> String.concat sep (x :: l) = x +:+ sep +:+ String.concat sep l.
Proof. destruct l; [congruence|reflexivity]. Qed.

Lemma split_facts (sep : string) (n : nat) (s : string) :
  sep <> "" ->
  String.length s <= n ->
  join sep (split sep s) = s
  /\ Forall (fun piece => contains sep piece = false) (split sep s)
  /\ (2 <= length (split sep s) <-> contains sep s = true).
Proof.
  intros Hs. revert s. induction n as [|n IH]; intros s Hn;
    rewrite split_eq by exact Hs; unfold contains;
    destruct (partition sep s) as [[a b]|] eqn:Hp.
  - pose proof (partition_shorter _ _ _ _ Hs Hp). lia.
  - split; [reflexivity|]. split; [|cbn; split; [lia|discriminate]].
    constructor; [apply contains_false, Hp|constructor].
  - pose proof (partition_shorter _ _ _ _ Hs Hp) as Hlt.
    destruct (IH b ltac:(lia)) as (Hj & HF & _).
    split; [|split].
    + unfold join in *. rewrite concat_cons by (apply split_nonnil, Hs).
      rewrite Hj. symmetry. apply partition_Some, Hp.
    + constructor; [eapply partition_free; eauto|exact HF].
    + pose proof (split_nonnil sep b Hs).
      destruct (split sep b); [congruence|]. cbn. split; [reflexivity|lia].
  - split; [reflexivity|]. split; [|cbn; split; [lia|discriminate]].
    constructor; [apply contains_false, Hp|constructor].
Qed.

(** X1.  For a non-empty separator, [sep.join(s.split(sep))] is [s] again,
    no piece of [s.split(sep)] holds the separator, and the split has a
    second piece exactly when [sep in s]. *)
Theorem X1_split_join_round_trip (sep s : string) :
  sep <> "" ->
  join sep (split sep s) = s
  /\ Forall (fun piece => contains sep piece = false) (split sep s)
  /\ (2 <= length (split sep s) <-> contains sep s = true).
Proof. intros Hs. apply (split_facts sep (String.length s)); [exact Hs|lia]. Qed.

Lemma X1_split_join_round_trip_witness :
  split ": " "Instruments: a: b" = ["Instruments"; "a"; "b"]
  /\ join ": " (split ": " "Instruments: a: b") = "Instruments: a: b".
Proof.
  split; [reflexivity|].
  apply (X1_split_join_round_trip ": " "Instruments: a: b"). discriminate.
Defined.

Lemma contains_char_cons (x c : ascii) (s : string) :
  contains (String x "") (String c s)
  = (if ascii_dec x c then true else contains (String x "") s).
Proof.
  unfold contains. rewrite partition_eq, prefix_cons.
  destruct (ascii_dec x c); [rewrite prefix_nil_l; reflexivity|].
  destruct (partition (String x "") s) as [[a b]|]; reflexivity.
Qed.

Lemma readlines_nil (s : string) : readlines s = [] -> s = "".
Proof.
  destruct s as [|c s]; [reflexivity|]. cbn [readlines].
  destruct (Ascii.eqb c LF); [discriminate|].
  destruct (readlines s); discriminate.
Qed.

Lemma readlines_concat (s : string) : String.concat "" (readlines s) = s.
Proof.
  induction s as [|c s IH]; [reflexivity|]. cbn [readlines].
  destruct (Ascii.eqb c LF).
  - destruct (readlines s) as [|l ls] eqn:Hr.
    + apply readlines_nil in Hr. subst. reflexivity.
    + rewrite concat_cons by discriminate. rewrite IH. reflexivity.
  - destruct (readlines s) as [|l ls] eqn:Hr.
    + apply readlines_nil in Hr. subst. reflexivity.
    + destruct ls as [|l' ls']; cbn in *; rewrite <- IH; reflexivity.
Qed.

(** X2.  [readlines] loses nothing and cuts after each line feed: the
    lines put together are the text again; every line is a text without
    line feed followed by one line feed, except that the last line may be a
    non-empty text without line feed. *)
Theorem X2_readlines_shape (s : string) :
  String.concat "" (readlines s) = s
  /\ forall i line,
       readlines s !! i = Some line ->
       exists body,
         contains newline body = false
         /\ (line = body +:+ newline
             \/ (line = body /\ body <> ""
                 /\ S i = length (readlines s))).
Proof.
  split; [apply readlines_concat|].
  induction s as [|c s IH]; intros i line Hi; [discriminate|].
  cbn [readlines] in *. destruct (Ascii.eqb c LF) eqn:Hc.
  - destruct i as [|i].
    + injection Hi as <-. exists "". split; [reflexivity|].
      left. apply Ascii.eqb_eq in Hc. subst. reflexivity.
    + destruct (IH i line Hi) as (body & Hb & Hs).
      exists body. split; [exact Hb|].
      destruct Hs as [Hs|(Hs & Hne & Hl)]; [left; exact Hs|].
      right. cbn [length]. rewrite <- Hl. auto.
  - assert (Hfree : forall body, contains newline body = false ->
                      contains newline (String c body) = false).
    { intros body Hb. unfold newline. rewrite contains_char_cons.
      destruct (ascii_dec LF c) as [<-|]; [|exact Hb].
      rewrite Ascii.eqb_refl in Hc. discriminate. }
    destruct (readlines s) as [|l ls] eqn:Hr.
    + destruct i as [|i]; [|discriminate]. injection Hi as <-.
      exists (String c ""). split; [apply Hfree; reflexivity|].
      right. split; [reflexivity|]. split; [discriminate|reflexivity].
    + destruct i as [|i].
      * injection Hi as <-.
        destruct (IH 0 l eq_refl) as (body & Hb & Hs).
        exists (String c body). split; [apply Hfree, Hb|].
        destruct Hs as [->|(-> & Hne & Hl)]; [left; reflexivity|].
        right. split; [reflexivity|]. split; [discriminate|exact Hl].
      * apply (IH (S i) line Hi).
Qed.




(** ** [extract_metadata], further *)

Lemma header_not_ok (content : list string) :
  header_ok content = false ->
  exists i, 1 <= i <= 4 /\ header_value content i = Raise IndexError.
Proof.
  unfold header_ok. intros H.
  assert (Hone : forall i,
            match content !! i with
            | Some line => contains ": " line
            | None => false
            end = false ->
            header_value content i = Raise IndexError).
  { intros i Hi. destruct (content !! i) as [line|] eqn:Hl.
    - apply (header_value_no_sep _ _ _ Hl Hi).
    - apply (header_value_out_of_range _ _ Hl). }
  cbn [forallb] in H.
  destruct (match content !! 1 with Some l => contains ": " l | None => false end)
    eqn:H1; [|exists 1; split; [lia|auto]].
  destruct (match content !! 2 with Some l => contains ": " l | None => false end)
    eqn:H2; [|exists 2; split; [lia|auto]].
  destruct (match content !! 3 with Some l => contains ": " l | None => false end)
    eqn:H3; [|exists 3; split; [lia|auto]].
  destruct (match content !! 4 with Some l => contains ": " l | None => false end)
    eqn:H4; [discriminate|exists 4; split; [lia|auto]].
Qed.

(** X4.  The outcome of [extract_metadata] is decided by the file alone: a
    missing file raises [FileNotFoundError]; a file one of whose lines 2 to
    5 is missing or holds no separator raises [IndexError]; every other
    file gives a record.  The file system is left as it is in each case. *)
Theorem X4_extract_metadata_outcome (file_path : string) (fs : files) :
  match fs !! file_path with
  | None => extract_metadata file_path fs = (Raise FileNotFoundError, fs)
  | Some text =>
      if header_ok (readlines text)
      then exists md, extract_metadata file_path fs = (Ok md, fs)
      else extract_metadata file_path fs = (Raise IndexError, fs)
  end.
Proof.
  destruct (fs !! file_path) as [text|] eqn:Hf.
  - rewrite (extract_metadata_run _ _ _ Hf).
    destruct (header_ok (readlines text)) eqn:Hok.
    + destruct (metadata_of_ok _ Hok) as (pairs & _ & ->). eauto.
    + destruct (header_not_ok _ Hok) as (i & Hi & Hv).
      rewrite (metadata_of_header_fails _ i Hi Hv). reflexivity.
  - apply extract_metadata_missing, Hf.
Qed.

Lemma segment_free (sep line m : string) :
  sep <> "" -> segment sep line = Some m -> contains sep m = false.
Proof.
  intros Hs. unfold segment.
  destruct (partition sep line) as [[a b]|]; [|discriminate].
  destruct (partition sep b) as [[m' c]|] eqn:Hb; intros [= <-].
  - eapply partition_free; eauto.
  - apply contains_false, Hb.
Qed.

Lemma header_value_Ok (content : list string) (i : nat) (v : string) :
  header_value content i = Ok v ->
  strip v = v /\ contains ": " v = false.
Proof.
  destruct (content !! i) as [line|] eqn:Hl.
  - rewrite (header_value_line _ _ _ Hl).
    destruct (segment ": " line) as [m|] eqn:Hm; [|discriminate].
    intros [= <-]. split; [apply strip_idem|].
    apply contains_strip. eapply segment_free; [exact sep_nonempty|exact Hm].
  - rewrite (header_value_out_of_range _ _ Hl). discriminate.
Qed.

Lemma metadata_of_Ok (content : list string) (md : Metadata) :
  metadata_of content = Ok md ->
  (forall i, 1 <= i <= 4 -> header_value content i = Ok (header_field i md))
  /\ exists ets, error_types content = Ok ets
                 /\ type_erreur md = join ", " ets.
Proof.
  unfold metadata_of. intros H.
  destruct (header_value content 1) as [v1|] eqn:H1; [|discriminate].
  destruct (header_value content 2) as [v2|] eqn:H2; [|discriminate].
  destruct (header_value content 3) as [v3|] eqn:H3; [|discriminate].
  destruct (header_value content 4) as [v4|] eqn:H4; [|discriminate].
  destruct (error_types content) as [ets|] eqn:He; [|discriminate].
  injection H as <-. split; [|exists ets; split; reflexivity].
  intros i Hi.
  assert (i = 1 \/ i = 2 \/ i = 3 \/ i = 4) as [ -> | [ -> | [ -> | -> ] ] ]
    by lia; assumption.
Qed.

Lemma extract_metadata_Ok
    (file_path : string) (fs fs' : files) (md : Metadata) :
  extract_metadata file_path fs = (Ok md, fs') ->
  exists text, fs !! file_path = Some text
               /\ metadata_of (readlines text) = Ok md /\ fs' = fs.
Proof.
  destruct (fs !! file_path) as [text|] eqn:Hf.
  - rewrite (extract_metadata_run _ _ _ Hf). intros [= H <-]. eauto.
  - rewrite (extract_metadata_missing _ _ Hf). discriminate.
Qed.

(** X5.  Whenever [extract_metadata] returns a record, each of its four
    fixed fields is stripped of outer white space and holds no separator
    [: ]: a value with a separator in it is never returned whole. *)
Theorem X5_fixed_fields_invariant
    (file_path : string) (fs fs' : files) (md : Metadata) (i : nat) :
  extract_metadata file_path fs = (Ok md, fs') ->
  1 <= i <= 4 ->
  strip (header_field i md) = header_field i md
  /\ contains ": " (header_field i md) = false.
Proof.
  intros H Hi. apply extract_metadata_Ok in H as (text & _ & Hm & _).
  apply metadata_of_Ok in Hm as [Hfields _].
  apply (header_value_Ok (readlines text) i), Hfields, Hi.
Qed.

Lemma X5_fixed_fields_invariant_witness :
  exists md,
    extract_metadata data_csv (one_file report_nested_value)
    = (Ok md, one_file report_nested_value)
    /\ contains ": " (instruments md) = false.
Proof.
  destruct (metadata_of_ok (readlines report_nested_value) eq_refl)
    as (pairs & _ & Hm).
  eexists. split.
  - rewrite (extract_metadata_run data_csv report_nested_value) by reflexivity.
    rewrite Hm. reflexivity.
  - eapply (X5_fixed_fields_invariant data_csv (one_file report_nested_value)
              _ _ 1); [|lia].
    rewrite (extract_metadata_run data_csv report_nested_value) by reflexivity.
    rewrite Hm. reflexivity.
Defined.

Lemma before_prefix (sep s : string) : exists r, s = before sep s +:+ r.
Proof.
  unfold before. destruct (partition sep s) as [[a b]|] eqn:Hp.
  - exists (sep +:+ b). apply partition_Some, Hp.
  - exists "". rewrite app_nil_r. reflexivity.
Qed.

Lemma contains_before (sub sep s : string) :
  contains sub s = false -> contains sub (before sep s) = false.
Proof.
  intros H. destruct (contains sub (before sep s)) eqn:Hc; [|reflexivity].
  destruct (before_prefix sep s) as [r Hr].
  rewrite Hr, <- (app_nil_l (before sep s +:+ r)), contains_app_mono in H;
    [discriminate|exact Hc].
Qed.

Lemma before_free (sep s : string) :
  sep <> "" -> contains sep (before sep s) = false.
Proof.
  intros Hs. unfold before. destruct (partition sep s) as [[a b]|] eqn:Hp.
  - eapply partition_free; eauto.
  - apply contains_false, Hp.
Qed.

(** X6.  Whatever the line, a pair returned by the loop body of
    [extract_metadata] has a kind that is stripped and holds neither an
    opening parenthesis nor the marker, and a parameter that holds no
    parenthesis at all: of nested or repeated parentheses only the text up
    to the next parenthesis is kept. *)
Theorem X6_error_pair_invariant (line kind param : string) :
  parse_error_line line = Ok (kind, param) ->
  strip kind = kind
  /\ contains "(" kind = false
  /\ contains marker kind = false
  /\ contains "(" param = false
  /\ contains ")" param = false.
Proof.
  unfold parse_error_line.
  rewrite item1_split by exact marker_nonempty.
  destruct (segment marker line) as [piece|] eqn:Hpiece; [|discriminate].
  cbn [mbind result_bind].
  rewrite item0_split by exact lparen_nonempty.
  pose proof (segment_free _ _ _ marker_nonempty Hpiece) as Hfree.
  assert (Hkind : forall k, k = strip (before "(" (strip piece)) ->
            strip k = k /\ contains "(" k = false /\ contains marker k = false).
  { intros k ->. split; [apply strip_idem|]. split.
    - apply contains_strip, before_free, lparen_nonempty.
    - apply contains_strip, contains_before, contains_strip, Hfree. }
  destruct (contains "(" (strip piece)) eqn:Hc.
  - rewrite item1_split by exact lparen_nonempty.
    destruct (segment "(" (strip piece)) as [p0|] eqn:Hp0; [|discriminate].
    cbn [mbind result_bind]. rewrite item0_split by exact rparen_nonempty.
    cbn [mbind result_bind]. intros [= <- <-].
    destruct (Hkind _ eq_refl) as (H1 & H2 & H3).
    repeat split; try assumption.
    + apply contains_before.
      eapply segment_free; [exact lparen_nonempty|exact Hp0].
    + apply before_free, rparen_nonempty.
  - cbn [mbind result_bind]. intros [= <- <-].
    destruct (Hkind _ eq_refl) as (H1 & H2 & H3).
    repeat split; try assumption; reflexivity.
Qed.

Lemma X6_error_pair_invariant_witness :
  parse_error_line "Error Distribution: Dir (a(b) c) (d)
" = Ok ("Dir", "a")
  /\ contains "(" "a" = false.
Proof.
  split; [reflexivity|].
  apply (X6_error_pair_invariant "Error Distribution: Dir (a(b) c) (d)
" "Dir" "a" eq_refl).
Defined.

Lemma descriptor_nonempty (p : string * string) : descriptor p <> "".
Proof.
  unfold descriptor. intros H. apply (f_equal String.length) in H.
  rewrite !length_app in H. simpl in H. lia.
Qed.

Lemma concat_nil_inv (sep x : string) (l : list string) :
  String.concat sep (x :: l) = "" -> x = "".
Proof.
  destruct l as [|y l]; [auto|]. cbn [String.concat]. intros H.
  destruct x; [reflexivity|discriminate].
Qed.

(** X7.  Whenever [extract_metadata] returns a record, its field
    [type_erreur] is the empty string exactly when no line of the file
    holds the marker: a marker line always leaves a descriptor, with its
    parentheses, even when the line has none. *)
Theorem X7_type_erreur_empty_iff
    (file_path text : string) (fs fs' : files) (md : Metadata) :
  fs !! file_path = Some text ->
  extract_metadata file_path fs = (Ok md, fs') ->
  (type_erreur md = "" <-> marker_lines (readlines text) = []).
Proof.
  intros Hf H. rewrite (extract_metadata_run _ _ _ Hf) in H.
  injection H as Hm _.
  apply metadata_of_Ok in Hm as (_ & ets & He & ->).
  destruct (error_types_total (readlines text)) as (pairs & HF & He').
  rewrite He' in He. injection He as <-.
  split.
  - intros Hj. destruct pairs as [|p pairs].
    + inversion HF. reflexivity.
    + cbn [map] in Hj. apply concat_nil_inv in Hj.
      destruct (descriptor_nonempty _ Hj).
  - intros Hnil. rewrite Hnil in HF. inversion HF. reflexivity.
Qed.

Lemma X7_type_erreur_empty_iff_witness :
  exists md,
    extract_metadata data_csv (one_file report_no_marker)
    = (Ok md, one_file report_no_marker)
    /\ type_erreur md = "".
Proof.
  destruct (metadata_of_ok (readlines report_no_marker) eq_refl)
    as (pairs & _ & Hm).
  match type of Hm with _ = Ok ?m => set (md := m) in * end.
  assert (Hrun : extract_metadata data_csv (one_file report_no_marker)
                 = (Ok md, one_file report_no_marker)).
  { rewrite (extract_metadata_run data_csv report_no_marker) by reflexivity.
    rewrite Hm. reflexivity. }
  exists md. split; [exact Hrun|].
  apply (X7_type_erreur_empty_iff data_csv report_no_marker
           (one_file report_no_marker) (one_file report_no_marker) md);
    [reflexivity|exact Hrun|].
  vm_compute. reflexivity.
Defined.

(** ** [load_and_process_data], further *)

Lemma parse_csv_exn (text : string) (skiprows nrows : nat) (e : exn) :
  parse_csv text skiprows nrows = Raise e ->
  e = EmptyDataError \/ e = ParserError.
Proof.
  unfold parse_csv.
  destruct (List.filter _ _) as [|header rest]; [intros [= <-]; auto|].
  destruct (forallb _ _); [discriminate|intros [= <-]; auto].
Qed.

(** X8.  On a file that exists, [load_and_process_data] raises
    [StopIteration] exactly when the Direction marker or the NEVA marker is
    in no line: the Direction marker is required like the NEVA marker, and
    reading the tables never raises this exception. *)
Theorem X8_stop_iteration_iff (file_path text : string) (fs : files) :
  fs !! file_path = Some text ->
  (fst (load_and_process_data file_path fs) = Raise StopIteration <->
   Forall (fun line => contains dir_marker line = false) (readlines text)
   \/ Forall (fun line => contains neva_marker line = false) (readlines text)).
Proof.
  intros Hf. rewrite (load_and_process_data_run _ _ _ Hf). cbn [fst].
  destruct (next_index dir_marker (readlines text)) as [d|e] eqn:Hd.
  - destruct (next_index neva_marker (readlines text)) as [n|e] eqn:Hn.
    + split.
      * cbn [mbind result_bind]. intros H. exfalso.
        destruct (parse_csv text (d + 1) 4) as [a|e] eqn:Ha.
        -- destruct (parse_csv text (n + 1) 4) as [b|e] eqn:Hb;
             [discriminate|].
           injection H as ->.
           destruct (parse_csv_exn _ _ _ _ Hb); discriminate.
        -- injection H as ->.
           destruct (parse_csv_exn _ _ _ _ Ha); discriminate.
      * intros [H|H].
        -- assert (Ok d = Raise StopIteration) as [=].
           rewrite <- Hd. apply next_index_Raise. auto.
        -- assert (Ok n = Raise StopIteration) as [=].
           rewrite <- Hn. apply next_index_Raise. auto.
    + apply next_index_Raise in Hn as [-> Hn]. split; [auto|reflexivity].
  - apply next_index_Raise in Hd as [-> Hd]. split; [auto|reflexivity].
Qed.

Lemma X8_stop_iteration_iff_witness :
  fst (load_and_process_data data_csv (one_file report_no_marker))
  = Raise StopIteration.
Proof.
  apply (X8_stop_iteration_iff data_csv report_no_marker); [reflexivity|].
  left. apply Forall_absent. vm_compute. reflexivity.
Defined.

Lemma short_record_fields (w : nat) (line : string) :
  short_record w line = true ->
  blank (csv_fields line) = false /\ length (csv_fields line) <= w.
Proof.
  unfold short_record. intros H.
  apply andb_true_iff in H as [Hb Hw].
  apply negb_true_iff in Hb. apply Nat.leb_le in Hw. split; assumption.
Qed.

(** What [read_csv] parses below a line that is followed by a header line
    and rows no wider than the header. *)
Lemma parse_csv_window_at (text : string) (i : nat) :
  window_at (readlines text) i = true ->
  parse_csv text (i + 1) 4 =
  Ok {| columns := columns_after (readlines text) i;
        rows := rows_after (readlines text) i |}.
Proof.
  unfold window_at, parse_csv, columns_after, rows_after.
  rewrite Nat.add_1_r.
  destruct (drop (S i) (readlines text)) as [|h rest] eqn:Hd; [discriminate|].
  destruct (drop_cons_inv _ _ _ _ Hd) as [-> ->].
  intros H. apply andb_true_iff in H as [Hb Hrows].
  cbn [map List.filter]. rewrite Hb.
  rewrite forallb_forall in Hrows.
  rewrite take_filter.
  2:{ rewrite firstn_map, forallb_forall.
      intros r Hr. apply in_map_iff in Hr as (line & <- & Hin).
      destruct (short_record_fields _ _ (Hrows _ Hin)) as [-> _]. reflexivity. }
  rewrite firstn_map.
  replace (forallb _ _) with true; [reflexivity|].
  symmetry. apply forallb_forall. intros r Hr.
  apply in_map_iff in Hr as (line & <- & Hin).
  destruct (short_record_fields _ _ (Hrows _ Hin)) as [_ Hw].
  apply Nat.leb_le. lia.
Qed.

Lemma filter_none {A : Type} (p : A -> bool) (l : list A) :
  forallb (fun x => negb (p x)) l = true -> List.filter p l = [].
Proof.
  induction l as [|x l IH]; [reflexivity|]. cbn. intros H.
  apply andb_true_iff in H as [Hx H]. apply negb_true_iff in Hx.
  rewrite Hx. apply IH, H.
Qed.

Lemma parse_csv_blank_after (text : string) (i : nat) :
  blank_after (readlines text) i = true ->
  parse_csv text (i + 1) 4 = Raise EmptyDataError.
Proof.
  unfold blank_after, parse_csv. rewrite Nat.add_1_r. intros H.
  rewrite filter_none; [reflexivity|].
  rewrite forallb_forall in *. intros r Hr.
  apply in_map_iff in Hr as (line & <- & Hin).
  rewrite (H _ Hin). reflexivity.
Qed.

(** X9.  On a quote-free report with both markers, when nothing but blank
    lines follows the first Direction marker line, or the Direction table
    is read and nothing but blank lines follows the first NEVA marker
    line, [load_and_process_data] raises the [EmptyDataError] of pandas and
    returns no table. *)
Theorem X9_marker_without_table
    (file_path text : string) (fs : files) (d n : nat) :
  fs !! file_path = Some text ->
  quote_free text = true ->
  next_index dir_marker (readlines text) = Ok d ->
  next_index neva_marker (readlines text) = Ok n ->
  (blank_after (readlines text) d = true
   \/ (window_at (readlines text) d = true
       /\ blank_after (readlines text) n = true)) ->
  load_and_process_data file_path fs = (Raise EmptyDataError, fs).
Proof.
  intros Hf _ Hd Hn H.
  rewrite (load_and_process_data_run _ _ _ Hf), Hd, Hn.
  cbn [mbind result_bind]. destruct H as [Hb|[Hw Hb]].
  - rewrite (parse_csv_blank_after _ _ Hb). reflexivity.
  - rewrite (parse_csv_window_at _ _ Hw), (parse_csv_blank_after _ _ Hb).
    reflexivity.
Qed.

Lemma X9_marker_without_table_witness :
  load_and_process_data data_csv (one_file report_marker_last)
  = (Raise EmptyDataError, one_file report_marker_last).
Proof.
  apply (X9_marker_without_table data_csv report_marker_last _ 11 5);
    try reflexivity.
  left. vm_compute. reflexivity.
Defined.

Lemma parse_csv_drop (text text' : string) (skiprows nrows : nat) :
  drop skiprows (readlines text') = drop skiprows (readlines text) ->
  parse_csv text' skiprows nrows = parse_csv text skiprows nrows.
Proof. intros H. unfold parse_csv. rewrite H. reflexivity. Qed.

(** X10.  The tables do not depend on the lines above the marker lines:
    two quote-free files whose first Direction marker lines have the same
    index and the same lines below them, and likewise for NEVA, give the
    same outcome of [load_and_process_data], whatever their header lines
    are. *)
Theorem X10_tables_ignore_header
    (file_path text file_path' text' : string) (fs fs' : files) (d n : nat) :
  fs !! file_path = Some text ->
  fs' !! file_path' = Some text' ->
  quote_free text = true ->
  quote_free text' = true ->
  next_index dir_marker (readlines text) = Ok d ->
  next_index dir_marker (readlines text') = Ok d ->
  next_index neva_marker (readlines text) = Ok n ->
  next_index neva_marker (readlines text') = Ok n ->
  drop (S d) (readlines text') = drop (S d) (readlines text) ->
  drop (S n) (readlines text') = drop (S n) (readlines text) ->
  fst (load_and_process_data file_path' fs')
  = fst (load_and_process_data file_path fs).
Proof.
  intros Hf Hf' _ _ Hd Hd' Hn Hn' Htd Htn.
  rewrite (load_and_process_data_run _ _ _ Hf),
    (load_and_process_data_run _ _ _ Hf'), Hd, Hd', Hn, Hn'.
  cbn [fst mbind result_bind]. rewrite !Nat.add_1_r.
  rewrite (parse_csv_drop text text' (S d) 4 Htd).
  rewrite (parse_csv_drop text text' (S n) 4 Htn). reflexivity.
Qed.

Lemma X10_tables_ignore_header_witness :
  fst (load_and_process_data data_csv (one_file report_no_header))
  = fst (load_and_process_data data_csv (one_file report_nested_value))
  /\ fst (extract_metadata data_csv (one_file report_no_header))
     = Raise IndexError.
Proof.
  split; [|vm_compute; reflexivity].
  apply (X10_tables_ignore_header data_csv report_nested_value
           data_csv report_no_header _ _ 5 11);
    vm_compute; reflexivity.
Defined.

(** X11.  A table does not end at the next marker line.  On a quote-free
    report whose marker lines are followed by a header and rows no wider
    than it, each table has as many rows as there are lines below its
    header, at most four; so when the NEVA marker line is one of the four
    lines below the Direction header it is counted among the rows of the
    Direction table, and the other way round. *)
Theorem X11_marker_line_read_as_row
    (file_path text : string) (fs : files) (d n : nat) :
  fs !! file_path = Some text ->
  quote_free text = true ->
  next_index dir_marker (readlines text) = Ok d ->
  next_index neva_marker (readlines text) = Ok n ->
  window_at (readlines text) d = true ->
  window_at (readlines text) n = true ->
  exists dir_data neva_data,
    load_and_process_data file_path fs = (Ok (dir_data, neva_data), fs)
    /\ length (rows dir_data) = Nat.min 4 (length (readlines text) - (d + 2))
    /\ length (rows neva_data) = Nat.min 4 (length (readlines text) - (n + 2))
    /\ (d + 2 <= n < d + 6 -> n - (d + 2) < length (rows dir_data))
    /\ (n + 2 <= d < n + 6 -> d - (n + 2) < length (rows neva_data)).
Proof.
  intros Hf _ Hd Hn Hwd Hwn.
  pose proof Hd as Hd'. pose proof Hn as Hn'.
  apply next_index_Ok in Hd' as [(dir_line & Hdl & _) _].
  apply next_index_Ok in Hn' as [(neva_line & Hnl & _) _].
  apply lookup_lt_Some in Hdl, Hnl.
  eexists _, _.
  rewrite (load_and_process_data_run _ _ _ Hf), Hd, Hn.
  cbn [mbind result_bind].
  rewrite (parse_csv_window_at _ _ Hwd). cbn [mbind result_bind].
  rewrite (parse_csv_window_at _ _ Hwn).
  split; [reflexivity|].
  cbn [rows]. rewrite !length_rows_after.
  repeat split; try reflexivity; lia.
Qed.

Lemma X11_marker_line_read_as_row_witness :
  exists dir_data neva_data,
    load_and_process_data data_csv (one_file report_three_rows)
    = (Ok (dir_data, neva_data), one_file report_three_rows)
    /\ readlines report_three_rows !! 10 = Some "Error Distribution: NEVA (d1)
"
    /\ length (rows dir_data) = 4.
Proof.
  destruct (X11_marker_line_read_as_row data_csv report_three_rows
              (one_file report_three_rows) 5 10)
    as (dir_data & neva_data & Hload & Hld & _); try reflexivity.
  exists dir_data, neva_data. split; [exact Hload|].
  split; [reflexivity|]. rewrite Hld. reflexivity.
Defined.

(** ** [list_csv_files] and [create_files_dataframe] *)

Lemma skip_suffix (k : nat) (s : string) :
  exists x, s = x +:+ skip k s /\ String.length x = Nat.min k (String.length s).
Proof.
  revert s. induction k as [|k IH]; intros s.
  - exists "". split; reflexivity.
  - destruct s as [|c s]; [exists ""; split; reflexivity|].
    destruct (IH s) as (x & Hx & Hl). exists (String c x).
    rewrite app_cons. cbn [skip String.length]. split; [f_equal; exact Hx|].
    rewrite Hl. reflexivity.
Qed.

(** [s.endswith(suffix)] holds exactly when [s] is a text followed by
    [suffix]. *)
Lemma endswith_spec (suffix s : string) :
  endswith suffix s = true <-> exists stem, s = stem +:+ suffix.
Proof.
  unfold endswith. rewrite String.eqb_eq. split.
  - intros H. destruct (skip_suffix (String.length s - String.length suffix) s)
      as (x & Hx & _).
    exists x. rewrite H in Hx. exact Hx.
  - intros (stem & ->). rewrite length_app.
    replace (String.length stem + String.length suffix - String.length suffix)
      with (String.length stem) by lia.
    apply skip_app.
Qed.

Lemma filter_sublist {A : Type} (p : A -> bool) (l : list A) :
  sublist (List.filter p l) l.
Proof.
  induction l as [|x l IH]; [constructor|]. cbn.
  destruct (p x); constructor; exact IH.
Qed.

(** X12.  [list_csv_files] passes on the exception of [os.listdir];
    otherwise it returns, in the order of the listing and as often as they
    are listed, exactly the names that are some text followed by [.csv]:
    the test is on the last four characters, with their case. *)
Theorem X12_list_csv_files_spec
    (listdir : string -> result (list string)) (directory : string) :
  match listdir directory with
  | Raise e => list_csv_files listdir directory = Raise e
  | Ok entries =>
      exists names,
        list_csv_files listdir directory = Ok names
        /\ sublist names entries
        /\ forall name,
             In name names <->
             In name entries /\ exists stem, name = stem +:+ ".csv"
  end.
Proof.
  unfold list_csv_files. destruct (listdir directory) as [entries|e];
    [|reflexivity].
  eexists. split; [reflexivity|]. split; [apply filter_sublist|].
  intros name. rewrite filter_In, endswith_spec. reflexivity.
Qed.

Lemma extract_metadata_listed_ok (fs : files) (file : string) :
  listed_ok fs file = true ->
  exists md, extract_metadata (path_join "data" file) fs = (Ok md, fs).
Proof.
  unfold listed_ok. destruct (fs !! path_join "data" file) as [text|] eqn:Hf;
    [|discriminate].
  intros Hok. destruct (metadata_of_ok _ Hok) as (pairs & _ & Hm).
  eexists. rewrite (extract_metadata_run _ _ _ Hf), Hm. reflexivity.
Qed.

Lemma extract_metadata_listed_bad (fs : files) (file : string) :
  listed_ok fs file = false ->
  exists e, extract_metadata (path_join "data" file) fs = (Raise e, fs)
            /\ (e = FileNotFoundError \/ e = IndexError).
Proof.
  unfold listed_ok. destruct (fs !! path_join "data" file) as [text|] eqn:Hf.
  - intros Hok. destruct (header_not_ok _ Hok) as (i & Hi & Hv).
    exists IndexError. rewrite (extract_metadata_run _ _ _ Hf).
    rewrite (metadata_of_header_fails _ i Hi Hv). auto.
  - intros _. exists FileNotFoundError.
    rewrite (extract_metadata_missing _ _ Hf). auto.
Qed.

Lemma files_data_ok (fs : files) (names : list string) :
  Forall (fun file => listed_ok fs file = true) names ->
  exists rows,
    files_data names fs = (Ok rows, fs)
    /\ Forall2 (fun file row =>
                  exists md,
                    extract_metadata (path_join "data" file) fs = (Ok md, fs)
                    /\ row = file_row file md) names rows.
Proof.
  induction 1 as [|file names Hfile _ (rows & Hrows & HF)].
  - exists []. split; [reflexivity|constructor].
  - destruct (extract_metadata_listed_ok _ _ Hfile) as (md & Hmd).
    exists (file_row file md :: rows). split.
    + cbn [files_data]. cbv [mbind IO_bind mret IO_ret].
      rewrite Hmd, Hrows. reflexivity.
    + constructor; [eauto|exact HF].
Qed.

Lemma files_data_bad (fs : files) (names : list string) :
  Exists (fun file => listed_ok fs file = false) names ->
  exists e, files_data names fs = (Raise e, fs)
            /\ (e = FileNotFoundError \/ e = IndexError).
Proof.
  induction names as [|file names IH]; intros H; [inversion H|].
  cbn [files_data]. cbv [mbind IO_bind mret IO_ret].
  destruct (listed_ok fs file) eqn:Hfile.
  - destruct (extract_metadata_listed_ok _ _ Hfile) as (md & ->).
    destruct IH as (e & -> & He).
    + inversion H; subst; [congruence|assumption].
    + eauto.
  - destruct (extract_metadata_listed_bad _ _ Hfile) as (e & -> & He). eauto.
Qed.

Lemma files_data_names (fs : files) (names : list string)
    (rows : list FileRow) :
  Forall2 (fun file row =>
             exists md,
               extract_metadata (path_join "data" file) fs = (Ok md, fs)
               /\ row = file_row file md) names rows ->
  map Fichier rows = names.
Proof.
  induction 1 as [|file row names rows (md & _ & ->) _ IH]; [reflexivity|].
  cbn. f_equal. exact IH.
Qed.

(** X13.  When every listed name ending in [.csv] is a file of [data] whose
    lines 2 to 5 hold the separator, [create_files_dataframe] returns one
    record per such name, in the order of the listing: the record holds the
    name and the metadata [extract_metadata] returns for the file at
    [data/name].  The file system is left as it is. *)
Theorem X13_listing_of_good_reports
    (listdir : string -> result (list string)) (fs : files)
    (entries : list string) :
  listdir "data" = Ok entries ->
  Forall (fun file => listed_ok fs file = true)
         (List.filter (endswith ".csv") entries) ->
  exists rows,
    create_files_dataframe listdir fs = (Ok rows, fs)
    /\ map Fichier rows = List.filter (endswith ".csv") entries
    /\ Forall2 (fun file row =>
                  exists md,
                    extract_metadata (path_join "data" file) fs = (Ok md, fs)
                    /\ row = file_row file md)
               (List.filter (endswith ".csv") entries) rows.
Proof.
  intros Hl Hall. destruct (files_data_ok _ _ Hall) as (rows & Hrows & HF).
  exists rows. split; [|split; [|exact HF]].
  - unfold create_files_dataframe, list_csv_files, lift.
    cbv [mbind IO_bind result_bind]. rewrite Hl. exact Hrows.
  - apply (files_data_names fs), HF.
Qed.

Lemma X13_listing_of_good_reports_witness :
  exists rows,
    create_files_dataframe sample_listdir sample_files = (Ok rows, sample_files)
    /\ map Fichier rows = ["b.csv"; "a.csv"].
Proof.
  destruct (X13_listing_of_good_reports sample_listdir sample_files
              ["b.csv"; "notes.txt"; "a.csv"] eq_refl)
    as (rows & Hrows & Hnames & _).
  - apply Forall_forall. intros file Hin.
    apply list_elem_of_In in Hin. cbn in Hin.
    destruct Hin as [<-|[<-|[]]]; vm_compute; reflexivity.
  - exists rows. split; [exact Hrows|exact Hnames].
Defined.

(** X14.  One bad report fails the whole listing: when [os.listdir] raises,
    or when a listed name ending in [.csv] is no file of [data] or is a
    file one of whose lines 2 to 5 is missing or holds no separator,
    [create_files_dataframe] raises ([FileNotFoundError] or [IndexError] in
    the second case) and returns no record, not even for the good
    reports. *)
Theorem X14_one_bad_report_fails_listing
    (listdir : string -> result (list string)) (fs : files) :
  (forall e, listdir "data" = Raise e ->
             create_files_dataframe listdir fs = (Raise e, fs))
  /\ (forall entries file,
        listdir "data" = Ok entries ->
        In file entries ->
        endswith ".csv" file = true ->
        listed_ok fs file = false ->
        exists e,
          create_files_dataframe listdir fs = (Raise e, fs)
          /\ (e = FileNotFoundError \/ e = IndexError)).
Proof.
  split.
  - intros e Hl. unfold create_files_dataframe, list_csv_files, lift.
    cbv [mbind IO_bind result_bind]. rewrite Hl. reflexivity.
  - intros entries file Hl Hin Hcsv Hbad.
    unfold create_files_dataframe, list_csv_files, lift.
    cbv [mbind IO_bind result_bind]. rewrite Hl.
    apply files_data_bad, Exists_exists. exists file.
    split; [|exact Hbad]. apply list_elem_of_In, filter_In. auto.
Qed.

Lemma X14_one_bad_report_fails_listing_witness :
  create_files_dataframe sample_listdir sample_files_broken
  = (Raise IndexError, sample_files_broken).
Proof.
  destruct (proj2 (X14_one_bad_report_fails_listing sample_listdir
                     sample_files_broken)
              ["b.csv"; "notes.txt"; "a.csv"] "a.csv" eq_refl)
    as (e & He & _).
  - cbn. auto.
  - reflexivity.
  - vm_compute. reflexivity.
  - rewrite He. f_equal.
    assert (Hc : fst (create_files_dataframe sample_listdir sample_files_broken)
                 = Raise IndexError) by (vm_compute; reflexivity).
    rewrite He in Hc. exact Hc.
Defined.

(** ** The two functions together, and edges *)

Lemma contains_dir_marker (line : string) :
  contains dir_marker line = true -> contains marker line = true.
Proof.
  rewrite !contains_occurs. intros (a & b & ->).
  exists a, (" Direction" +:+ b).
  change dir_marker with (marker +:+ " Direction").
  rewrite !app_assoc. reflexivity.
Qed.

Lemma marker_lines_In (content : list string) (i : nat) (line : string) :
  content !! i = Some line ->
  contains marker line = true ->
  marker_lines content <> [].
Proof.
  intros Hl Hc Hnil.
  assert (Hin : In line (marker_lines content)).
  { apply filter_In. split; [|exact Hc].
    apply list_elem_of_In, list_elem_of_lookup. eauto. }
  rewrite Hnil in Hin. destruct Hin.
Qed.

(** X15.  A file in which [load_and_process_data] finds the Direction
    marker never has an empty [type_erreur]: the line that starts the
    Direction table is one of the lines [extract_metadata] describes. *)
Theorem X15_table_marker_is_described
    (file_path text : string) (fs fs' : files) (md : Metadata) (d : nat) :
  fs !! file_path = Some text ->
  next_index dir_marker (readlines text) = Ok d ->
  extract_metadata file_path fs = (Ok md, fs') ->
  type_erreur md <> "".
Proof.
  intros Hf Hd Hmd Hempty.
  apply next_index_Ok in Hd as [(line & Hl & Hc) _].
  apply (marker_lines_In _ _ _ Hl (contains_dir_marker _ Hc)).
  rewrite (extract_metadata_run _ _ _ Hf) in Hmd. injection Hmd as Hm _.
  apply metadata_of_Ok in Hm as (_ & ets & He & Ht).
  destruct (error_types_total (readlines text)) as (pairs & HF & He').
  rewrite He' in He. injection He as <-. rewrite Ht in Hempty.
  destruct pairs as [|p pairs]; [inversion HF; reflexivity|].
  cbn [map] in Hempty. apply concat_nil_inv in Hempty.
  destruct (descriptor_nonempty _ Hempty).
Qed.

Lemma X15_table_marker_is_described_witness :
  exists md,
    extract_metadata data_csv (one_file report_broken_table)
    = (Ok md, one_file report_broken_table)
    /\ type_erreur md <> "".
Proof.
  destruct (metadata_of_ok (readlines report_broken_table) eq_refl)
    as (pairs & _ & Hm).
  match type of Hm with _ = Ok ?m => set (md := m) in * end.
  assert (Hrun : extract_metadata data_csv (one_file report_broken_table)
                 = (Ok md, one_file report_broken_table)).
  { rewrite (extract_metadata_run data_csv report_broken_table) by reflexivity.
    rewrite Hm. reflexivity. }
  exists md. split; [exact Hrun|].
  apply (X15_table_marker_is_described data_csv report_broken_table
           (one_file report_broken_table) (one_file report_broken_table) md 5);
    [reflexivity|reflexivity|exact Hrun].
Defined.

Lemma parse_csv_Ok (text : string) (skiprows nrows : nat) (df : DataFrame) :
  parse_csv text skiprows nrows = Ok df ->
  length (rows df) <= nrows
  /\ blank (columns df) = false
  /\ Forall (fun row => blank row = false) (rows df).
Proof.
  unfold parse_csv.
  destruct (List.filter _ _) as [|header rest] eqn:Hfil; [discriminate|].
  destruct (forallb _ _); [|discriminate]. intros [= <-]. cbn [rows columns].
  assert (Hall : Forall (fun r => blank r = false) (header :: rest)).
  { rewrite <- Hfil. apply Forall_forall. intros r Hr.
    apply list_elem_of_In, filter_In in Hr as [_ Hr].
    apply negb_true_iff, Hr. }
  inversion Hall as [|? ? Hh Hrest]; subst.
  split; [rewrite length_take; lia|]. split; [exact Hh|].
  apply Forall_take, Hrest.
Qed.

(** X16.  Whenever [load_and_process_data] returns, each table has at most
    four rows, none of them blank, and a header that is not blank, whatever
    the file holds below the rows that were read. *)
Theorem X16_tables_bounded
    (file_path : string) (fs fs' : files) (dir_data neva_data : DataFrame) :
  load_and_process_data file_path fs = (Ok (dir_data, neva_data), fs') ->
  (length (rows dir_data) <= 4 /\ blank (columns dir_data) = false
   /\ Forall (fun row => blank row = false) (rows dir_data))
  /\ (length (rows neva_data) <= 4 /\ blank (columns neva_data) = false
      /\ Forall (fun row => blank row = false) (rows neva_data)).
Proof.
  destruct (fs !! file_path) as [text|] eqn:Hf.
  - rewrite (load_and_process_data_run _ _ _ Hf).
    destruct (next_index dir_marker (readlines text)) as [d|]; [|discriminate].
    destruct (next_index neva_marker (readlines text)) as [n|]; [|discriminate].
    cbn [mbind result_bind].
    destruct (parse_csv text (d + 1) 4) as [a|] eqn:Ha; [|discriminate].
    destruct (parse_csv text (n + 1) 4) as [b|] eqn:Hb; [|discriminate].
    cbn [mbind result_bind]. intros [= <- <- _].
    split; eapply parse_csv_Ok; eassumption.
  - rewrite (load_and_process_data_missing _ _ Hf). discriminate.
Qed.

Lemma X16_tables_bounded_witness :
  exists dir_data neva_data,
    fst (load_and_process_data data_csv (one_file report_scenario))
    = Ok (dir_data, neva_data)
    /\ length (rows dir_data) <= 4.
Proof.
  pose proof (load_and_process_data_tables data_csv report_scenario
                (one_file report_scenario) 6 12
                eq_refl eq_refl eq_refl eq_refl eq_refl eq_refl) as Hrun.
  eexists _, _. split; [rewrite Hrun; reflexivity|].
  apply (proj1 (proj1 (X16_tables_bounded _ _ _ _ _ Hrun))).
Defined.

Lemma all_space_lstrip (s : string) : all_space s = true -> lstrip s = "".
Proof.
  induction s as [|c s IH]; [reflexivity|]. cbn. intros H.
  apply andb_true_iff in H as [-> H]. apply IH, H.
Qed.

Lemma all_space_app (s t : string) :
  all_space (s +:+ t) = true -> all_space s = true.
Proof.
  induction s as [|c s IH]; [reflexivity|]. rewrite app_cons. cbn. intros H.
  apply andb_true_iff in H as [-> H]. apply IH, H.
Qed.

(** X17.  A header line with nothing but white space after its first
    separator is no error: [extract_metadata] returns a record whose field
    for that line is the empty string. *)
Theorem X17_empty_header_value
    (file_path text : string) (fs : files) (i : nat) (label ws : string) :
  fs !! file_path = Some text ->
  header_ok (readlines text) = true ->
  1 <= i <= 4 ->
  readlines text !! i = Some (label +:+ ": " +:+ ws) ->
  contains ": " label = false ->
  all_space ws = true ->
  exists md,
    extract_metadata file_path fs = (Ok md, fs)
    /\ header_field i md = "".
Proof.
  intros Hf Hok Hi Hline Hlabel Hws.
  destruct (metadata_of_ok _ Hok) as (pairs & _ & Hm).
  eexists. rewrite (extract_metadata_run _ _ _ Hf), Hm.
  split; [reflexivity|].
  assert (Ht : header_text (readlines text) i = "").
  { unfold header_text. rewrite Hline.
    erewrite segment_before
      by (apply partition_app; [reflexivity|exact Hlabel]).
    unfold strip. rewrite all_space_lstrip; [reflexivity|].
    destruct (before_prefix ": " ws) as [r Hr].
    apply (all_space_app _ r). rewrite <- Hr. exact Hws. }
  rewrite <- Ht.
  assert (i = 1 \/ i = 2 \/ i = 3 \/ i = 4) as [ -> | [ -> | [ -> | -> ] ] ]
    by lia; reflexivity.
Qed.

Lemma X17_empty_header_value_witness :
  exists md,
    extract_metadata data_csv (one_file report_empty_value)
    = (Ok md, one_file report_empty_value)
    /\ instruments md = "".
Proof.
  apply (X17_empty_header_value data_csv report_empty_value
           (one_file report_empty_value) 1 "Instruments" newline);
    solve [reflexivity | lia].
Defined.
